(** * vscode-antd-rush: hover and completion resolution

    A shallow embedding of the two providers of the extension,
    [HoverProvider] (hover cards) and [AntdProvideCompletionItem]
    (handler completion), and the properties of the resolution core:
    name normalisation, the three-tier catalog matcher, the symbol
    classifier, the choice of the definition location, and the
    behaviour of both providers on absence, cancellation and
    catalog/documentation mismatches.

    Conventions of the embedding.
    - A JavaScript string is a [string]: one [ascii] per code unit.  The
      case mappings are the ASCII ones; code units from 128 on are left
      alone by both of them.
    - [null] and [undefined] results are [None]; a JavaScript truthiness
      test is written out ([truthy]).
    - A JSON object used as a table is a [gmap] (own properties only); the
      component catalog, whose key order [Object.keys] exposes, is an
      association list.  The read of the catalog by the name of the
      enclosing component, a name from outside the catalog, also sees
      the names every object inherits ([readEntry]).
    - An [await]ed call to an editor or syntax-tree service is a node of
      the program tree [Prog]; [run] answers the calls from a [Services]
      record and records them in order. *)

From Stdlib Require Import String Ascii List Bool Arith ZArith Lia.
From stdpp Require Import base option list gmap strings.

Import ListNotations.
Local Open Scope list_scope.
Local Open Scope string_scope.

(** ** JavaScript strings *)

Module JS.

(** [c] is one of [A]..[Z]. *)
Definition isUpperAZ (c : ascii) : bool :=
  let n := nat_of_ascii c in (65 <=? n)%nat && (n <=? 90)%nat.

(** [c] is one of [a]..[z]. *)
Definition isLowerAZ (c : ascii) : bool :=
  let n := nat_of_ascii c in (97 <=? n)%nat && (n <=? 122)%nat.

(** The lower-case form of an ASCII character.  The code's mapping also
    changes code units from 128 on ([À] to [à]); those are left alone
    here, so the embedding is exact on ASCII strings. *)
Definition charToLowerCase (c : ascii) : ascii :=
  if isUpperAZ c then ascii_of_nat (nat_of_ascii c + 32) else c.

(** The upper-case form of an ASCII character; code units from 128 on are
    left alone here as well ([à] to [À] and [ß] to [SS] in the code). *)
Definition charToUpperCase (c : ascii) : ascii :=
  if isLowerAZ c then ascii_of_nat (nat_of_ascii c - 32) else c.

(** [String.prototype.toLowerCase]. *)
Fixpoint toLowerCase (s : string) : string :=
  match s with
  | EmptyString => EmptyString
  | String c r => String (charToLowerCase c) (toLowerCase r)
  end.

(** [String.prototype.toUpperCase]. *)
Fixpoint toUpperCase (s : string) : string :=
  match s with
  | EmptyString => EmptyString
  | String c r => String (charToUpperCase c) (toUpperCase r)
  end.

(** [s.split(sep)] for a separator of one character: the pieces between
    the occurrences of [sep], always at least one piece. *)
Fixpoint split (sep : ascii) (s : string) : list string :=
  match s with
  | EmptyString => [EmptyString]
  | String c r =>
      if Ascii.eqb c sep then EmptyString :: split sep r
      else match split sep r with
           | [] => [String c EmptyString]
           | piece :: pieces => String c piece :: pieces
           end
  end.

(** [parts.join(sep)]. *)
Fixpoint join (sep : string) (parts : list string) : string :=
  match parts with
  | [] => EmptyString
  | [p] => p
  | p :: ps => p ++ sep ++ join sep ps
  end.

(** [s[0]]: the first character as a string of length one, [undefined]
    on the empty string. *)
Definition charAt0 (s : string) : option string :=
  match s with
  | EmptyString => None
  | String c _ => Some (String c EmptyString)
  end.

(** Truthiness of a string: every string but the empty one. *)
Definition truthy (s : string) : bool := negb (String.eqb s EmptyString).

(** Truthiness of a [string | null | undefined]. *)
Definition truthyOpt (o : option string) : bool :=
  match o with
  | None => false
  | Some s => truthy s
  end.

(** [o || d] for a [string | undefined] on the left. *)
Definition orElse (o : option string) (d : string) : string :=
  match o with
  | Some s => if truthy s then s else d
  | None => d
  end.

(** The names a plain object inherits from [Object.prototype]. *)
Definition objectPrototypeNames : list string :=
  [ "constructor"; "__defineGetter__"; "__defineSetter__"; "hasOwnProperty";
    "__lookupGetter__"; "__lookupSetter__"; "isPrototypeOf"; "propertyIsEnumerable";
    "toString"; "valueOf"; "__proto__"; "toLocaleString" ].

Definition inherited (name : string) : bool :=
  existsb (String.eqb name) objectPrototypeNames.

(** What the model keeps of a thrown value. *)
Inductive Error : Type :=
| TypeError
| AntdRushError (msg : string).

End JS.

(** ** Static resources *)

(** An entry of [antdComponentMap]; [methods] may be left out. *)
Record ComponentMeta : Type := { methods : option (list string) }.

(** A row of [definition.json]; [defaultValue] is its [default] field. *)
Record PropDoc : Type := {
  description : string;
  type : string;
  defaultValue : string;
  version : string
}.

Inductive DocLanguage : Type := en | zh.

Inductive MarkdownString : Type := Markdown (value : string).

(** A row handed to [composeCardMessage]. *)
Record CardRow : Type := {
  rowLabel : string;
  rowValue : string;
  rowDisplay : option string
}.

(** The result of [matchAntdModule] on a path of the library. *)
Record AntdModuleMatch : Type := { componentFolder : string }.

(** What the two providers import: the catalog, the documentation tables
    and the helpers of [./utils] and [./insertion]. *)
Class Imports : Type := {
  antdComponentMap : list (string * ComponentMeta);
  antdDocJson : DocLanguage -> gmap string (gmap string PropDoc);
  rawTableJson : DocLanguage -> gmap string (list string);
  matchNodeModules : string -> bool;
  matchAntdModule : string -> option AntdModuleMatch;
  composeCardMessage : list CardRow -> DocLanguage -> MarkdownString;
  composeDocLink : string -> DocLanguage -> string;
  __intl : string -> DocLanguage -> string;
  addHandlerPrefix : string -> string
}.

(** [Object.keys(antdComponentMap)]. *)
Definition Object_keys `{Imports} : list string := map fst antdComponentMap.

(** [antdComponentMap[name]]. *)
Fixpoint assoc {V : Type} (name : string) (entries : list (string * V)) : option V :=
  match entries with
  | [] => None
  | (k, v) :: rest => if String.eqb k name then Some v else assoc name rest
  end.

(** What a bracket read [object[name]] of a plain object finds: an own
    property, a value inherited from [Object.prototype], or nothing. *)
Inductive Property (V : Type) : Type :=
| Own (v : V)
| Inherited
| Missing.

Arguments Own {V} v.
Arguments Inherited {V}.
Arguments Missing {V}.

(** [antdComponentMap[name]] for a name that need not be a key. *)
Definition readEntry {V : Type} (name : string) (entries : list (string * V)) : Property V :=
  match assoc name entries with
  | Some v => Own v
  | None => if JS.inherited name then Inherited else Missing
  end.

(** ** Editor values *)

(** A position of the editor.  The editor's own check of the coordinates
    handed to a new [Position] is not part of the model. *)
Record Position : Type := { line : Z; character : Z }.

Record Range : Type := { rangeStart : Position; rangeEnd : Position }.

Record Uri : Type := { path : string }.

Record Location : Type := { locUri : Uri; locRange : Range }.

Record TextDocument : Type := {
  uri : Uri;
  getWordRangeAtPosition : Position -> option Range;
  getText : option Range -> string
}.

Record CancellationToken : Type := { isCancellationRequested : bool }.

Record CompletionContext : Type := { triggerCharacter : option string }.

(** A class declaration node of the syntax tree, by its identifier. *)
Inductive ClassDeclaration : Type := ClassNode (id : nat).

Inductive NodePredicate : Type := isClassExtendsReactComponent.

Inductive Direction : Type := outward | inward.

Record Hover : Type := { contents : list MarkdownString }.

Inductive InsertKind : Type := direct | inquiry.

Inductive CompletionItemKind : Type := Method.

(** The [afterCompletion] command attached to an item. *)
Record AfterCompletion : Type := {
  title : string;
  command : string;
  arguments : Range * TextDocument * string * option InsertKind * option ClassDeclaration
}.

Record CompletionItem : Type := {
  label : string;
  kind : CompletionItemKind;
  documentation : option MarkdownString;
  insertText : option string;
  itemCommand : AfterCompletion
}.

(** ** Awaited calls *)

(** The services a provider awaits, indexed by the type of the answer. *)
Inductive Call : Type -> Type :=
| ExecuteDefinitionProvider (u : Uri) (p : Position) : Call (option (list Location))
| ExecuteTypeDefinitionProvider (u : Uri) (p : Position) : Call (option (list Location))
| GetContainerSymbolAtLocation (l : Location) : Call (option string)
| GetClosetAntdJsxElementNode (d : TextDocument) (p : Position) : Call (option string)
| GetParentsWhen (d : TextDocument) (p : Position) (when : NodePredicate) (dir : Direction)
    : Call (option ClassDeclaration)
| ConsoleInfo (msg : string) : Call unit.

(** A provider body: it returns, throws, or awaits a call and goes on with
    the answer. *)
Inductive Prog (A : Type) : Type :=
| Ret (a : A)
| Throw (e : JS.Error)
| Await {X : Type} (c : Call X) (k : X -> Prog A).

Arguments Ret {A} a.
Arguments Throw {A} e.
Arguments Await {A X} c k.

Fixpoint bind {A B : Type} (p : Prog A) (f : A -> Prog B) : Prog B :=
  match p with
  | Ret a => f a
  | Throw e => Throw e
  | Await c k => Await c (fun x => bind (k x) f)
  end.

#[global] Instance Prog_ret : MRet Prog := @Ret.
#[global] Instance Prog_bind : MBind Prog := fun A B f p => bind p f.

Definition await {X : Type} (c : Call X) : Prog X := Await c Ret.

(** A value of a fallible pure step, thrown on when it failed. *)
Definition lift {A : Type} (r : JS.Error + A) : Prog A :=
  match r with
  | inl e => Throw e
  | inr a => Ret a
  end.

(** The answers of the editor and of the syntax tree during one request. *)
Record Services : Type := { answer : forall X : Type, Call X -> X }.

Inductive Issued : Type :=
| issued : forall X : Type, Call X -> Issued.

Arguments issued {X} c.

Inductive Outcome (A : Type) : Type :=
| Returned (a : A)
| Thrown (e : JS.Error).

Arguments Returned {A} a.
Arguments Thrown {A} e.

(** Runs a body against the services: the calls issued, in order, and how
    the body ended. *)
Fixpoint run {A : Type} (sv : Services) (p : Prog A) : list Issued * Outcome A :=
  match p with
  | Ret a => ([], Returned a)
  | Throw e => ([], Thrown e)
  | Await c k =>
      let r := run sv (k (answer sv _ c)) in
      (issued c :: fst r, snd r)
  end.

Definition calls {A : Type} (sv : Services) (p : Prog A) : list Issued := fst (run sv p).
Definition outcome {A : Type} (sv : Services) (p : Prog A) : Outcome A := snd (run sv p).

(** ** The hover provider *)

Inductive NodeType : Type := component | props.

Module HoverProvider.

Record t : Type := {
  document : TextDocument;
  position : Position;
  token : CancellationToken;
  language : DocLanguage
}.

Section Methods.
Context `{Imports}.

Definition normalizeName (raw : string) : string :=
  JS.toLowerCase (JS.join "" (JS.split "." raw)).

Definition fuzzySearchComponentMapping (fuzzyName : string) : option string :=
  let exactKey :=
    find (fun com => String.eqb (normalizeName com) (normalizeName fuzzyName)) Object_keys in
  if negb (JS.truthyOpt exactKey) then None else exactKey.

Definition tryMatchComponentName (symbolName libName : string) : option string :=
  (* 1. try exact match *)
  let exactKey :=
    find (fun com => String.eqb (normalizeName com) (normalizeName symbolName)) Object_keys in
  if JS.truthyOpt exactKey then exactKey else
  (* 2. try exact match folder name *)
  let libKey :=
    find (fun com => String.eqb (normalizeName com) (normalizeName libName)) Object_keys in
  if JS.truthyOpt libKey then libKey else
  (* 3. try fuzzy match *)
  let fuzzyKey :=
    find (fun com => String.eqb (normalizeName com) (normalizeName (libName ++ symbolName)))
         Object_keys in
  if negb (JS.truthyOpt fuzzyKey) then None else fuzzyKey.

(** [name[0].toUpperCase() !== name[0]]; reading [toUpperCase] off the
    missing first character of the empty string throws. *)
Definition getAstNodeType (name : string) : JS.Error + NodeType :=
  match JS.charAt0 name with
  | None => inl JS.TypeError
  | Some first =>
      inr (if negb (String.eqb (JS.toUpperCase first) first) then props else component)
  end.

(** Both services are awaited one after the other, the definitions
    first; an answer left out counts as empty. *)
Definition getDefinitionInAntdModule (this : t) : Prog (option Location) :=
  definitions ← await (ExecuteDefinitionProvider (uri (document this)) (position this));
  typeDefinitions ←
    await (ExecuteTypeDefinitionProvider (uri (document this)) (position this));
  let definitionsUnderAntd :=
    List.filter (fun d => matchNodeModules (path (locUri d))) (default [] definitions) in
  let typeDefinitionsUnderAntd :=
    List.filter (fun d => matchNodeModules (path (locUri d))) (default [] typeDefinitions) in
  _ ← (if (1 <? length typeDefinitionsUnderAntd)%nat
       then await (ConsoleInfo "[antd-rush]: get more than one type definition")
       else mret tt);
  _ ← (if (1 <? length definitionsUnderAntd)%nat
       then await (ConsoleInfo "[antd-rush]: get more than one definition")
       else mret tt);
  match typeDefinitionsUnderAntd with
  | typeDefinition :: _ => mret (Some typeDefinition)
  | [] =>
      match definitionsUnderAntd with
      | definition :: _ => mret (Some definition)
      | [] => mret None
      end
  end.

(** The props hover card, from the name of the closest component on.
    [matchedComponent[propText]] is read four times without a test: on a
    record without that entry the first read, of [description], throws.
    The record is read by its own entries: a hovered word that every
    object inherits ([toString], [constructor], ...) is outside this
    reading. *)
Definition propsHover (this : t) (propText : string) : Prog (option Hover) :=
  antdComponentName ← await (GetClosetAntdJsxElementNode (document this) (position this));
  match antdComponentName with
  | None => mret None
  | Some antdComponentName =>
      if negb (JS.truthy antdComponentName) then mret None else
      match fuzzySearchComponentMapping antdComponentName with
      | None => mret None
      | Some fuzzyComponentName =>
          match antdDocJson (language this) !! fuzzyComponentName with
          | None =>
              Throw (JS.AntdRushError
                       ("did not match component for " ++ fuzzyComponentName))
          | Some matchedComponent =>
              match matchedComponent !! propText with
              | None => Throw JS.TypeError
              | Some doc =>
                  let md :=
                    composeCardMessage
                      [ {| rowLabel := "description"; rowValue := description doc;
                           rowDisplay := None |};
                        {| rowLabel := "type"; rowValue := type doc; rowDisplay := None |};
                        {| rowLabel := "default"; rowValue := defaultValue doc;
                           rowDisplay := None |};
                        {| rowLabel := "version"; rowValue := version doc;
                           rowDisplay := None |} ]
                      (language this) in
                  mret (Some {| contents := [md] |})
              end
          end
      end
  end.

(** The component hover card, from the definition location and the
    container symbol on.  The label of the second link is kept as the
    bytes of its source text. *)
Definition componentHover (this : t) (definitionLoc : Location) (interaceName : string)
  : Prog (option Hover) :=
  let definitionPath := path (locUri definitionLoc) in
  match matchAntdModule definitionPath with
  | None => mret None
  | Some antdMatched =>
      let componentFolder := componentFolder antdMatched in
      match tryMatchComponentName interaceName componentFolder with
      | None => mret None
      | Some comName =>
          match assoc comName antdComponentMap with
          | None => Throw (JS.AntdRushError ("did not match component for " ++ comName))
          | Some _ =>
              let enDocLink := "[EN](" ++ composeDocLink componentFolder en ++ ")" in
              let zhDocLink := "[中文](" ++ composeDocLink componentFolder zh ++ ")" in
              let docLinks :=
                match language this with
                | en => enDocLink ++ " | " ++ zhDocLink
                | zh => zhDocLink ++ " | " ++ enDocLink
                end in
              let headMd :=
                Markdown ("**" ++ comName ++ "** " ++ __intl "componentHint" (language this)
                          ++ " [ " ++ docLinks ++ " ]") in
              match rawTableJson (language this) !! comName with
              | None => Throw JS.TypeError
              | Some tables => mret (Some {| contents := headMd :: map Markdown tables |})
              end
          end
      end
  end.

Definition provideHover (this : t) : Prog (option Hover) :=
  let range := getWordRangeAtPosition (document this) (position this) in
  let propText := getText (document this) range in
  definitionLoc ← getDefinitionInAntdModule this;
  match definitionLoc with
  | None => mret None
  | Some definitionLoc =>
      interaceName ← await (GetContainerSymbolAtLocation definitionLoc);
      match interaceName with
      | None => mret None
      | Some interaceName =>
          nodeType ← lift (getAstNodeType interaceName);
          match nodeType with
          | props => propsHover this propText
          | component => componentHover this definitionLoc interaceName
          end
      end
  end.

End Methods.

End HoverProvider.

(** ** The completion provider *)

Module AntdProvideCompletionItem.

Record t : Type := {
  document : TextDocument;
  position : Position;
  token : CancellationToken;
  context : CompletionContext;
  language : DocLanguage
}.

Definition insertKindMapping : list (string * InsertKind) :=
  [("!", direct); ("#", inquiry)].

Section Methods.
Context `{Imports}.

Definition getHandlerDocument (this : t) (componentName handlerName : string)
  : option MarkdownString :=
  match antdDocJson (language this) !! componentName ≫= (.!! handlerName) with
  | None => None
  | Some propDoc =>
      Some (composeCardMessage
              [ {| rowLabel := "type"; rowValue := type propDoc;
                   rowDisplay := Some "blockCode" |};
                {| rowLabel := "description"; rowValue := description propDoc;
                   rowDisplay := None |};
                {| rowLabel := "default"; rowValue := defaultValue propDoc;
                   rowDisplay := None |};
                {| rowLabel := "version"; rowValue := version propDoc;
                   rowDisplay := None |} ]
              (language this))
  end.

(** The item of one handler.  [insertText] stays unset when the trigger
    character has no entry in [insertKindMapping]. *)
Definition transformHandlerToItem (this : t) (componentName handlerName : string)
  (classComponentParent : option ClassDeclaration) : CompletionItem :=
  let isInClassComponent :=
    match classComponentParent with Some _ => true | None => false end in
  let doc := getHandlerDocument this componentName handlerName in
  let sharpSymbolRange :=
    {| rangeStart := {| line := line (position this);
                        character := character (position this) - 1 |};
       rangeEnd := {| line := line (position this);
                      character := character (position this) |} |} in
  let triggerChar := triggerCharacter (context this) in
  let insertKind := assoc (JS.orElse triggerChar "#") insertKindMapping in
  let insertText :=
    match insertKind with
    | Some direct =>
        Some (handlerName ++ "={" ++ (if isInClassComponent then "this." else "")
              ++ addHandlerPrefix handlerName ++ "} ")
    | Some inquiry => Some handlerName
    | None => None
    end in
  let cmd :=
    {| title := "afterCompletion";
       command := "antdRush.afterCompletion";
       arguments :=
         (sharpSymbolRange, document this, handlerName, insertKind, classComponentParent) |} in
  {| label := handlerName;
     kind := Method;
     documentation := doc;
     insertText := insertText;
     itemCommand := cmd |}.

(** [antdComponentMap[componentName].methods]: the read of [methods]
    throws when the catalog has nothing under the name, and gives
    [undefined] on a value the catalog only inherits. *)
Definition provideCompletionItems (this : t) : Prog (list CompletionItem) :=
  if isCancellationRequested (token this) then mret [] else
  componentName ← await (GetClosetAntdJsxElementNode (document this) (position this));
  match componentName with
  | None => mret []
  | Some componentName =>
      match readEntry componentName antdComponentMap with
      | Missing => Throw JS.TypeError
      | Inherited => mret []
      | Own entry =>
          match methods entry with
          | None => mret []
          | Some availableHandler =>
              classComponentParent ←
                await (GetParentsWhen (document this) (position this)
                         isClassExtendsReactComponent outward);
              let items :=
                map (fun handlerName =>
                       transformHandlerToItem this componentName handlerName
                         classComponentParent)
                    availableHandler in
              mret items
          end
      end
  end.

End Methods.

End AntdProvideCompletionItem.

(** ** The contracts in the words of the specification *)

(** Removes every [.] of a string. *)
Fixpoint removeDots (s : string) : string :=
  match s with
  | EmptyString => EmptyString
  | String c r => if Ascii.eqb c "." then removeDots r else String c (removeDots r)
  end.

(** The normaliser as the specification words it: all [.] removed, the
    remainder in lower case. *)
Definition normalize_spec (raw : string) : string := JS.toLowerCase (removeDots raw).

(** The first catalog key equal to [name] up to normalisation. *)
Definition matchExact `{Imports} (name : string) : option string :=
  find (fun com => String.eqb (HoverProvider.normalizeName com)
                              (HoverProvider.normalizeName name)) Object_keys.

(** The combinator as the specification words it: the symbol name, then
    the folder name, then their concatenation; the first hit. *)
Definition resolve_spec `{Imports} (symbolName folderName : string) : option string :=
  match matchExact symbolName with
  | Some key => Some key
  | None =>
      match matchExact folderName with
      | Some key => Some key
      | None => matchExact (folderName ++ symbolName)
      end
  end.

(** Some catalog key equals [name] up to normalisation. *)
Definition catalogHas `{Imports} (name : string) : Prop :=
  exists key, key ∈ Object_keys /\ HoverProvider.normalizeName key = HoverProvider.normalizeName name.

(** No catalog key is the empty string. *)
Definition keysNonEmpty `{Imports} : Prop :=
  forall key, key ∈ Object_keys -> key <> "".

(** The invariant of the catalog: its keys are pairwise distinct up to
    normalisation. *)
Definition keysUnique `{Imports} : Prop :=
  forall k1 k2, k1 ∈ Object_keys -> k2 ∈ Object_keys ->
    HoverProvider.normalizeName k1 = HoverProvider.normalizeName k2 -> k1 = k2.

(** The locations of an answer that lie inside the installed module path
    of the library; an answer left out counts as empty. *)
Definition insideModule `{Imports} (answered : option (list Location)) : list Location :=
  List.filter (fun d => matchNodeModules (path (locUri d))) (default [] answered).

(** The answers of the two definition services to a hover request. *)
Definition definitionsFor (sv : Services) (this : HoverProvider.t) : option (list Location) :=
  answer sv _ (ExecuteDefinitionProvider (uri (HoverProvider.document this))
                 (HoverProvider.position this)).

Definition typeDefinitionsFor (sv : Services) (this : HoverProvider.t)
  : option (list Location) :=
  answer sv _ (ExecuteTypeDefinitionProvider (uri (HoverProvider.document this))
                 (HoverProvider.position this)).

(** The location a hover is to work from, in the words of the
    specification: the first type definition inside the module path, else
    the first plain definition inside it, else none. *)
Definition chosenLocation `{Imports} (sv : Services) (this : HoverProvider.t)
  : option Location :=
  match insideModule (typeDefinitionsFor sv this) with
  | typeDefinition :: _ => Some typeDefinition
  | [] => head (insideModule (definitionsFor sv this))
  end.

(** The word under the cursor of a hover request. *)
Definition hoveredWord (this : HoverProvider.t) : string :=
  getText (HoverProvider.document this)
    (getWordRangeAtPosition (HoverProvider.document this) (HoverProvider.position this)).

(** The insertion style an item hands to its [afterCompletion] command. *)
Definition insertKindOf (item : CompletionItem) : option InsertKind :=
  snd (fst (arguments (itemCommand item))).

(** ** Sample resources and requests *)

Module Sample.

Definition buttonDoc : PropDoc :=
  {| description := "set the handler to handle click event";
     type := "(event) => void";
     defaultValue := "-";
     version := "" |}.

(** Helpers that keep their arguments visible in the result. *)
Definition cardOf (rows : list CardRow) (lang : DocLanguage) : MarkdownString :=
  Markdown (JS.join "|" (map (fun r => rowLabel r ++ "=" ++ rowValue r) rows)).

Definition underAntd (p : string) : bool := String.prefix "/node_modules/antd/" p.

Definition folderOf (p : string) : option AntdModuleMatch :=
  if underAntd p then Some {| componentFolder := "Table" |} else None.

Definition imports (catalog : list (string * ComponentMeta))
  (docs : gmap string (gmap string PropDoc)) : Imports :=
  {| antdComponentMap := catalog;
     antdDocJson := fun _ => docs;
     rawTableJson := fun _ => {[ "TableColumn" := ["| Property | Description |"] ]};
     matchNodeModules := underAntd;
     matchAntdModule := folderOf;
     composeCardMessage := cardOf;
     composeDocLink := fun folder _ => "https://ant.design/components/" ++ folder;
     __intl := fun key _ => key;
     addHandlerPrefix := fun h => "handle" ++ h |}.

Definition handlers (hs : list string) : ComponentMeta := {| methods := Some hs |}.

(** A catalog with [TableColumn] and neither [Column] nor [Table]. *)
Definition columnCatalog : list (string * ComponentMeta) :=
  [("Button", handlers ["onClick"; "onFocus"]); ("TableColumn", handlers [])].

(** A catalog that has the empty string among its keys. *)
Definition emptyKeyCatalog : list (string * ComponentMeta) :=
  [("", handlers []); ("Table", handlers [])].

(** A catalog with a component that has no handler list. *)
Definition dividerCatalog : list (string * ComponentMeta) :=
  [("Button", handlers ["onClick"; "onFocus"]); ("Divider", {| methods := None |})].

(** Documentation with a [Button] record that has [onClick] only. *)
Definition buttonDocs : gmap string (gmap string PropDoc) :=
  {[ "Button" := {[ "onClick" := buttonDoc ]} ]}.

Definition origin : Position := {| line := 0; character := 0 |}.

Definition at_ (l c : Z) : Position := {| line := l; character := c |}.

Definition point (p : Position) : Range := {| rangeStart := p; rangeEnd := p |}.

Definition locationAt (p : string) : Location :=
  {| locUri := {| path := p |}; locRange := point origin |}.

Definition insideInterface : Location :=
  locationAt "/node_modules/antd/lib/table/interface.d.ts".

Definition insideColumn : Location := locationAt "/node_modules/antd/lib/table/Column.d.ts".

Definition outsideReact : Location := locationAt "/node_modules/@types/react/index.d.ts".

(** A document whose word under every position is [word]. *)
Definition documentWith (word : string) : TextDocument :=
  {| uri := {| path := "/work/App.tsx" |};
     getWordRangeAtPosition := fun p => Some (point p);
     getText := fun _ => word |}.

(** Services with fixed answers. *)
Definition services (definitions typeDefinitions : option (list Location))
  (container closest : option string) (classParent : option ClassDeclaration) : Services :=
  {| answer := fun X c =>
       match c in Call X return X with
       | ExecuteDefinitionProvider _ _ => definitions
       | ExecuteTypeDefinitionProvider _ _ => typeDefinitions
       | GetContainerSymbolAtLocation _ => container
       | GetClosetAntdJsxElementNode _ _ => closest
       | GetParentsWhen _ _ _ _ => classParent
       | ConsoleInfo _ => tt
       end |}.

Definition hoverOn (word : string) (cancelled : bool) : HoverProvider.t :=
  {| HoverProvider.document := documentWith word;
     HoverProvider.position := at_ 3 8;
     HoverProvider.token := {| isCancellationRequested := cancelled |};
     HoverProvider.language := en |}.

Definition completionOn (trigger : option string) (cancelled : bool)
  : AntdProvideCompletionItem.t :=
  {| AntdProvideCompletionItem.document := documentWith "#";
     AntdProvideCompletionItem.position := at_ 3 8;
     AntdProvideCompletionItem.token := {| isCancellationRequested := cancelled |};
     AntdProvideCompletionItem.context := {| triggerCharacter := trigger |};
     AntdProvideCompletionItem.language := en |}.

End Sample.

(** ** Further vocabulary *)

(** The characters of a string satisfy [P]. *)
Fixpoint allChars (P : ascii -> bool) (s : string) : bool :=
  match s with
  | EmptyString => true
  | String c r => P c && allChars P r
  end.

(** A character a normalised name can hold: no [.] and none of [A]..[Z]. *)
Definition normalChar (c : ascii) : bool := negb (Ascii.eqb c ".") && negb (JS.isUpperAZ c).

(** The first of three lookups that gives a key. *)
Definition firstOf (a b c : option string) : option string :=
  match a with
  | Some key => Some key
  | None => match b with Some key => Some key | None => c end
  end.

(** The lines a hover logs about more than one location left by the
    filter, the one about type definitions first. *)
Definition multiplicityNotes (typeDefinitions definitions : list Location) : list Issued :=
  app (if (1 <? length typeDefinitions)%nat
       then [issued (ConsoleInfo "[antd-rush]: get more than one type definition")]
       else [])
      (if (1 <? length definitions)%nat
       then [issued (ConsoleInfo "[antd-rush]: get more than one definition")]
       else []).

(** The character before the cursor of a completion request. *)
Definition characterBeforeCursor (this : AntdProvideCompletionItem.t) : Range :=
  {| rangeStart := {| line := line (AntdProvideCompletionItem.position this);
                      character := character (AntdProvideCompletionItem.position this) - 1 |};
     rangeEnd := {| line := line (AntdProvideCompletionItem.position this);
                    character := character (AntdProvideCompletionItem.position this) |} |}.

(** The two questions of a completion request to the syntax tree. *)
Definition closestQuestion (this : AntdProvideCompletionItem.t) : Issued :=
  issued (GetClosetAntdJsxElementNode (AntdProvideCompletionItem.document this)
            (AntdProvideCompletionItem.position this)).

Definition classQuestion (this : AntdProvideCompletionItem.t) : Issued :=
  issued (GetParentsWhen (AntdProvideCompletionItem.document this)
            (AntdProvideCompletionItem.position this) isClassExtendsReactComponent outward).

(** The handler list the catalog has for the answered component name. *)
Definition handlersOf `{Imports} (componentName : option string) : option (list string) :=
  match componentName with
  | None => None
  | Some name =>
      match assoc name antdComponentMap with
      | None => None
      | Some entry => methods entry
      end
  end.

(** A hover that gets as far as the props card of the catalog key [key]:
    a location inside the module path, a container symbol classified as
    [props], an enclosing component with a name that is not empty, and
    [key] found for that name. *)
Definition reachesPropsCard `{Imports} (sv : Services) (this : HoverProvider.t)
  (key : string) : Prop :=
  exists loc interaceName name,
    chosenLocation sv this = Some loc
    /\ answer sv _ (GetContainerSymbolAtLocation loc) = Some interaceName
    /\ HoverProvider.getAstNodeType interaceName = inr props
    /\ answer sv _ (GetClosetAntdJsxElementNode (HoverProvider.document this)
                      (HoverProvider.position this)) = Some name
    /\ name <> ""
    /\ HoverProvider.fuzzySearchComponentMapping name = Some key.

(** A hover that gets as far as the component card of the catalog key
    [comName]: a location inside the module path that [matchAntdModule]
    takes, a container symbol classified as [component], and [comName]
    found for that symbol and the folder of the location. *)
Definition reachesComponentCard `{Imports} (sv : Services) (this : HoverProvider.t)
  (comName : string) : Prop :=
  exists loc interaceName antdMatched,
    chosenLocation sv this = Some loc
    /\ answer sv _ (GetContainerSymbolAtLocation loc) = Some interaceName
    /\ HoverProvider.getAstNodeType interaceName = inr component
    /\ matchAntdModule (path (locUri loc)) = Some antdMatched
    /\ HoverProvider.tryMatchComponentName interaceName (componentFolder antdMatched)
       = Some comName.

(** The calls of a hover after the two definition services and the
    lines logged: the container symbol of the chosen location, then, for a
    prop, the enclosing component. *)
Definition hoverFollowUp `{Imports} (sv : Services) (this : HoverProvider.t) : list Issued :=
  match chosenLocation sv this with
  | None => []
  | Some loc =>
      issued (GetContainerSymbolAtLocation loc)
      :: match answer sv _ (GetContainerSymbolAtLocation loc) with
         | None => []
         | Some interaceName =>
             match HoverProvider.getAstNodeType interaceName with
             | inr props =>
                 [issued (GetClosetAntdJsxElementNode (HoverProvider.document this)
                            (HoverProvider.position this))]
             | _ => []
             end
         end
  end.

(** ** The range of the embedding *)

(** A string of ASCII characters: on these the case mappings of the
    embedding are those of the code. *)
Definition isAscii (s : string) : bool :=
  allChars (fun c => (nat_of_ascii c <? 128)%nat) s.

(** A catalog whose keys are ASCII names, none of them a name every
    object inherits. *)
Definition plainCatalog `{Imports} : Prop :=
  forall key, key ∈ Object_keys -> isAscii key = true /\ JS.inherited key = false.

(** A hover within the range of the embedding: a plain catalog, a hovered
    word that no object inherits, and ASCII names for the container
    symbol and the folder of the chosen location and for the enclosing
    component. *)
Definition plainHover `{Imports} (sv : Services) (this : HoverProvider.t) : Prop :=
  plainCatalog
  /\ JS.inherited (hoveredWord this) = false
  /\ (forall loc, chosenLocation sv this = Some loc ->
        (forall interaceName,
            answer sv _ (GetContainerSymbolAtLocation loc) = Some interaceName ->
            isAscii interaceName = true)
        /\ (forall antdMatched,
              matchAntdModule (path (locUri loc)) = Some antdMatched ->
              isAscii (componentFolder antdMatched) = true))
  /\ (forall name,
        answer sv _ (GetClosetAntdJsxElementNode (HoverProvider.document this)
                       (HoverProvider.position this)) = Some name ->
        isAscii name = true).

(** A cursor with a character before it on its line: the position the
    editor accepts for the start of [characterBeforeCursor]. *)
Definition cursorAfterCharacter (this : AntdProvideCompletionItem.t) : Prop :=
  (0 <= line (AntdProvideCompletionItem.position this))%Z
  /\ (1 <= character (AntdProvideCompletionItem.position this))%Z.

(** * Properties *)

(** ** Strings *)

Lemma charToLowerCase_idem (c : ascii) :
  JS.charToLowerCase (JS.charToLowerCase c) = JS.charToLowerCase c.
Proof. destruct c as [[] [] [] [] [] [] [] []]; reflexivity. Qed.

Lemma charToLowerCase_dot (c : ascii) :
  Ascii.eqb (JS.charToLowerCase c) "." = Ascii.eqb c ".".
Proof. destruct c as [[] [] [] [] [] [] [] []]; reflexivity. Qed.

Lemma toLowerCase_idem (s : string) : JS.toLowerCase (JS.toLowerCase s) = JS.toLowerCase s.
Proof.
  induction s as [|c r IH]; simpl; [reflexivity|].
  now rewrite charToLowerCase_idem, IH.
Qed.

Lemma split_not_nil (sep : ascii) (s : string) : JS.split sep s <> [].
Proof.
  destruct s as [|c r]; simpl; [discriminate|].
  destruct (Ascii.eqb c sep); [discriminate|].
  destruct (JS.split sep r); discriminate.
Qed.

Lemma join_empty_cons (p : string) (ps : list string) :
  JS.join "" (p :: ps) = p ++ JS.join "" ps.
Proof.
  destruct ps as [|q qs]; simpl; [|reflexivity].
  induction p as [|c r IH]; [reflexivity|].
  exact (f_equal (String c) IH).
Qed.

(** Splitting at the dots and joining the pieces removes the dots. *)
Lemma join_split_dots (s : string) : JS.join "" (JS.split "." s) = removeDots s.
Proof.
  induction s as [|c r IH]; [reflexivity|].
  cbn [JS.split removeDots].
  destruct (Ascii.eqb c ".").
  - rewrite join_empty_cons. exact IH.
  - destruct (JS.split "." r) as [|piece pieces] eqn:E.
    + now apply split_not_nil in E.
    + rewrite join_empty_cons, <- IH, join_empty_cons. reflexivity.
Qed.

Lemma removeDots_toLowerCase (s : string) :
  removeDots (JS.toLowerCase s) = JS.toLowerCase (removeDots s).
Proof.
  induction s as [|c r IH]; simpl; [reflexivity|].
  rewrite charToLowerCase_dot. destruct (Ascii.eqb c "."); simpl; now rewrite IH.
Qed.

Lemma removeDots_idem (s : string) : removeDots (removeDots s) = removeDots s.
Proof.
  induction s as [|c r IH]; simpl; [reflexivity|].
  destruct (Ascii.eqb c ".") eqn:E; simpl; [exact IH|]. now rewrite E, IH.
Qed.

Lemma normalizeName_spec (s : string) : HoverProvider.normalizeName s = normalize_spec s.
Proof. unfold HoverProvider.normalizeName, normalize_spec. now rewrite join_split_dots. Qed.

(** C9: name normalisation is idempotent, [normalizeName (normalizeName s)]
    is [normalizeName s] for every string [s], and [normalizeName] is the
    removal of every [.] followed by the lowering of the remainder. *)
Theorem normalizeName_idempotent (s : string) :
  HoverProvider.normalizeName (HoverProvider.normalizeName s) = HoverProvider.normalizeName s
  /\ HoverProvider.normalizeName s = JS.toLowerCase (removeDots s).
Proof.
  split; [|apply normalizeName_spec].
  rewrite !normalizeName_spec. unfold normalize_spec.
  now rewrite removeDots_toLowerCase, removeDots_idem, toLowerCase_idem.
Qed.

(** ** The symbol classifier *)

Lemma getAstNodeType_cons (c : ascii) (rest : string) :
  HoverProvider.getAstNodeType (String c rest)
  = inr (if Ascii.eqb (JS.charToUpperCase c) c then component else props).
Proof.
  unfold HoverProvider.getAstNodeType. cbn.
  destruct (Ascii.eqb (JS.charToUpperCase c) c); reflexivity.
Qed.

(** X17: on the ASCII letters the rule reads: a name is a prop exactly
    when it starts with one of [a]..[z]; a name that starts with a digit,
    an underscore or a dollar sign is a component like one that starts
    with a capital. *)
Lemma getAstNodeType_props_iff (c : ascii) (rest : string) :
  HoverProvider.getAstNodeType (String c rest) = inr props <-> JS.isLowerAZ c = true.
Proof.
  rewrite getAstNodeType_cons.
  destruct c as [[] [] [] [] [] [] [] []]; vm_compute; split; congruence.
Qed.

(** C8: a name whose first character differs from its upper-case form is
    classified as [props], every other name with a first character as
    [component]; [Button] is a component and [onClick] a prop. *)
Theorem getAstNodeType_by_first_character (c : ascii) (rest : string) :
  (JS.toUpperCase (String c "") <> String c "" ->
     HoverProvider.getAstNodeType (String c rest) = inr props)
  /\ (JS.toUpperCase (String c "") = String c "" ->
     HoverProvider.getAstNodeType (String c rest) = inr component)
  /\ HoverProvider.getAstNodeType "Button" = inr component
  /\ HoverProvider.getAstNodeType "onClick" = inr props.
Proof.
  rewrite getAstNodeType_cons. cbn [JS.toUpperCase].
  destruct (Ascii.eqb_spec (JS.charToUpperCase c) c) as [E|E].
  - split; [|split; [|split]]; try reflexivity.
    intros D. contradict D. now rewrite E.
  - split; [|split; [|split]]; try reflexivity.
    intros D. contradict E. congruence.
Qed.

Lemma getAstNodeType_by_first_character_witness :
  HoverProvider.getAstNodeType "onFocus" = inr props
  /\ HoverProvider.getAstNodeType "Table" = inr component.
Proof.
  split.
  - apply (proj1 (getAstNodeType_by_first_character "o" "nFocus")). vm_compute. discriminate.
  - apply (proj1 (proj2 (getAstNodeType_by_first_character "T" "able"))). reflexivity.
Defined.

(** ** The catalog matcher *)

Section MatcherFacts.
Context `{Imports}.

Lemma find_key_truthy (f : string -> bool) (key : string) :
  keysNonEmpty -> find f Object_keys = Some key -> JS.truthy key = true.
Proof.
  intros Hne Hf. apply find_some in Hf as [Hin _].
  apply list_elem_of_In, Hne in Hin.
  unfold JS.truthy. destruct (String.eqb_spec key ""); [contradiction|reflexivity].
Qed.

Lemma truthyOpt_find (f : string -> bool) :
  keysNonEmpty ->
  JS.truthyOpt (find f Object_keys) = match find f Object_keys with Some _ => true | None => false end.
Proof.
  intros Hne. destruct (find f Object_keys) as [key|] eqn:E; [|reflexivity].
  exact (find_key_truthy f key Hne E).
Qed.

Lemma matchExact_Some (name key : string) :
  matchExact name = Some key ->
  key ∈ Object_keys /\ HoverProvider.normalizeName key = HoverProvider.normalizeName name.
Proof.
  unfold matchExact. intros Hf. apply find_some in Hf as [Hin Heq].
  split; [now apply list_elem_of_In | now apply String.eqb_eq].
Qed.

Lemma matchExact_None (name : string) : matchExact name = None <-> ~ catalogHas name.
Proof.
  unfold matchExact, catalogHas. split.
  - intros Hf (key & Hin & Heq).
    apply list_elem_of_In in Hin.
    pose proof (find_none _ _ Hf key Hin) as Hk. cbn in Hk.
    apply String.eqb_neq in Hk. contradiction.
  - intros Hno. destruct (find _ Object_keys) as [key|] eqn:E; [|reflexivity].
    apply find_some in E as [Hin Heq]. contradict Hno.
    exists key. split; [now apply list_elem_of_In | now apply String.eqb_eq].
Qed.

(** With the keys distinct up to normalisation, a key that matches is
    the one found. *)
Lemma matchExact_unique (name key : string) :
  keysUnique -> key ∈ Object_keys ->
  HoverProvider.normalizeName key = HoverProvider.normalizeName name ->
  matchExact name = Some key.
Proof.
  intros Hu Hin Heq. destruct (matchExact name) as [found|] eqn:E.
  - apply matchExact_Some in E as [Hin' Heq'].
    f_equal. apply Hu; congruence.
  - apply matchExact_None in E. contradict E. now exists key.
Qed.

Lemma tryMatchComponentName_resolve_spec (symbolName folderName : string) :
  keysNonEmpty ->
  HoverProvider.tryMatchComponentName symbolName folderName = resolve_spec symbolName folderName.
Proof.
  intros Hne. unfold HoverProvider.tryMatchComponentName, resolve_spec, matchExact.
  rewrite !truthyOpt_find by assumption.
  repeat (destruct (find _ Object_keys); try reflexivity).
Qed.

Lemma fuzzySearchComponentMapping_matchExact (fuzzyName : string) :
  keysNonEmpty -> HoverProvider.fuzzySearchComponentMapping fuzzyName = matchExact fuzzyName.
Proof.
  intros Hne. unfold HoverProvider.fuzzySearchComponentMapping, matchExact.
  rewrite truthyOpt_find by assumption.
  destruct (find _ Object_keys); reflexivity.
Qed.

End MatcherFacts.

(** C1: [tryMatchComponentName] tries the symbol name, then the folder
    name, then the concatenation folder name + symbol name, each compared
    with the catalog keys up to normalisation, and gives the first key that
    hits, [null] when all three fail.  A key that matches the symbol name is
    the result whatever the folder name, and [Column] in folder [Table]
    resolves to [TableColumn] in a catalog with [TableColumn] where no key
    matches [Column] or [Table].  The catalog is one without an empty key
    and with keys distinct up to normalisation. *)
Theorem tryMatchComponentName_three_tiers `{Imports} (symbolName folderName : string) :
  keysNonEmpty -> keysUnique ->
  HoverProvider.tryMatchComponentName symbolName folderName = resolve_spec symbolName folderName
  /\ (forall key, key ∈ Object_keys ->
        HoverProvider.normalizeName key = HoverProvider.normalizeName symbolName ->
        HoverProvider.tryMatchComponentName symbolName folderName = Some key)
  /\ (~ catalogHas symbolName -> ~ catalogHas folderName ->
      ~ catalogHas (folderName ++ symbolName) ->
        HoverProvider.tryMatchComponentName symbolName folderName = None)
  /\ ("TableColumn" ∈ Object_keys -> ~ catalogHas "Column" -> ~ catalogHas "Table" ->
        HoverProvider.tryMatchComponentName "Column" "Table" = Some "TableColumn").
Proof.
  intros Hne Hu. rewrite !tryMatchComponentName_resolve_spec by assumption.
  unfold resolve_spec. repeat split.
  - intros key Hin Heq. now rewrite (matchExact_unique symbolName key).
  - intros H1 H2 H3. apply matchExact_None in H1, H2, H3. now rewrite H1, H2, H3.
  - intros Hin H1 H2. apply matchExact_None in H1, H2. rewrite H1, H2.
    now apply matchExact_unique.
Qed.

Ltac enumerate_keys H :=
  apply list_elem_of_In in H; cbn in H;
  repeat (destruct H as [H|H]; [symmetry in H; subst|]); try contradiction.

Lemma columnCatalog_keysNonEmpty : @keysNonEmpty (Sample.imports Sample.columnCatalog ∅).
Proof. intros key Hin. enumerate_keys Hin; discriminate. Defined.

Lemma columnCatalog_keysUnique : @keysUnique (Sample.imports Sample.columnCatalog ∅).
Proof.
  intros k1 k2 H1 H2 Heq.
  enumerate_keys H1; enumerate_keys H2; try reflexivity; vm_compute in Heq; discriminate.
Defined.

Lemma tryMatchComponentName_three_tiers_witness :
  let catalog := Sample.imports Sample.columnCatalog ∅ in
  @HoverProvider.tryMatchComponentName catalog "Column" "Table" = Some "TableColumn"
  /\ @HoverProvider.tryMatchComponentName catalog "button" "AnythingElse" = Some "Button"
  /\ @HoverProvider.tryMatchComponentName catalog "Column" "Grid" = None.
Proof.
  assert (Hno : forall name,
             existsb (fun key => String.eqb (HoverProvider.normalizeName key)
                                            (HoverProvider.normalizeName name))
                     (@Object_keys (Sample.imports Sample.columnCatalog ∅)) = false ->
             ~ @catalogHas (Sample.imports Sample.columnCatalog ∅) name).
  { intros name Hex (key & Hin & Heq). apply list_elem_of_In in Hin.
    apply not_true_iff_false in Hex. apply Hex, existsb_exists.
    exists key. split; [assumption | now apply String.eqb_eq]. }
  split; [|split].
  - apply (tryMatchComponentName_three_tiers (H := Sample.imports Sample.columnCatalog ∅)
             "Column" "Table" columnCatalog_keysNonEmpty columnCatalog_keysUnique).
    + apply list_elem_of_In. cbn. tauto.
    + apply Hno. reflexivity.
    + apply Hno. reflexivity.
  - apply (tryMatchComponentName_three_tiers (H := Sample.imports Sample.columnCatalog ∅)
             "button" "AnythingElse" columnCatalog_keysNonEmpty columnCatalog_keysUnique).
    + apply list_elem_of_In. cbn. tauto.
    + reflexivity.
  - apply (tryMatchComponentName_three_tiers (H := Sample.imports Sample.columnCatalog ∅)
             "Column" "Grid" columnCatalog_keysNonEmpty columnCatalog_keysUnique);
      apply Hno; reflexivity.
Defined.

(** The truthiness tests of the matcher skip a hit on the empty key: with
    the empty string among the keys, the empty symbol name falls through
    to the folder name. *)
Example tryMatchComponentName_empty_key :
  let catalog := Sample.imports Sample.emptyKeyCatalog ∅ in
  @matchExact catalog "" = Some ""
  /\ @HoverProvider.tryMatchComponentName catalog "" "Table" = Some "Table"
  /\ @HoverProvider.tryMatchComponentName catalog "" "Grid" = None.
Proof. repeat split. Qed.

(** ** Running a provider body *)

Lemma run_bind {A B : Type} (sv : Services) (p : Prog A) (f : A -> Prog B) :
  run sv (p ≫= f)
  = match outcome sv p with
    | Returned a => (app (calls sv p) (calls sv (f a)), outcome sv (f a))
    | Thrown e => (calls sv p, Thrown e)
    end.
Proof.
  unfold mbind, Prog_bind, calls, outcome.
  induction p as [a|e|X c k IH]; cbn.
  - now destruct (run sv (f a)).
  - reflexivity.
  - rewrite IH. now destruct (snd (run sv (k (answer sv X c)))).
Qed.

Lemma run_await {X B : Type} (sv : Services) (c : Call X) (f : X -> Prog B) :
  run sv (await c ≫= f)
  = (issued c :: calls sv (f (answer sv X c)), outcome sv (f (answer sv X c))).
Proof. reflexivity. Qed.

(** ** The definition location of a hover *)

Section DefinitionFacts.
Context `{Imports}.
Variables (sv : Services) (this : HoverProvider.t).

(** The location [getDefinitionInAntdModule] settles on. *)
Lemma getDefinitionInAntdModule_outcome :
  outcome sv (HoverProvider.getDefinitionInAntdModule this)
  = Returned (chosenLocation sv this).
Proof.
  unfold HoverProvider.getDefinitionInAntdModule, outcome, chosenLocation.
  rewrite !run_await. cbn [snd]. unfold outcome. rewrite run_await. cbn [snd].
  fold (definitionsFor sv this) (typeDefinitionsFor sv this).
  fold (insideModule (definitionsFor sv this)) (insideModule (typeDefinitionsFor sv this)).
  unfold outcome. rewrite !run_bind.
  destruct (1 <? length (insideModule (typeDefinitionsFor sv this)))%nat;
    destruct (1 <? length (insideModule (definitionsFor sv this)))%nat;
    cbn; destruct (insideModule (typeDefinitionsFor sv this));
    destruct (insideModule (definitionsFor sv this)); reflexivity.
Qed.

(** The two definition services are asked first, whatever follows. *)
Lemma getDefinitionInAntdModule_calls :
  exists logged,
    calls sv (HoverProvider.getDefinitionInAntdModule this)
    = issued (ExecuteDefinitionProvider (uri (HoverProvider.document this))
                (HoverProvider.position this))
      :: issued (ExecuteTypeDefinitionProvider (uri (HoverProvider.document this))
                   (HoverProvider.position this))
      :: logged.
Proof.
  unfold HoverProvider.getDefinitionInAntdModule, calls.
  rewrite run_await. cbn [fst]. unfold calls. rewrite run_await. cbn [fst].
  eexists. reflexivity.
Qed.

(** With nothing left after the filter, nothing is logged either. *)
Lemma getDefinitionInAntdModule_run_none :
  insideModule (typeDefinitionsFor sv this) = [] ->
  insideModule (definitionsFor sv this) = [] ->
  run sv (HoverProvider.getDefinitionInAntdModule this)
  = ([ issued (ExecuteDefinitionProvider (uri (HoverProvider.document this))
                 (HoverProvider.position this));
       issued (ExecuteTypeDefinitionProvider (uri (HoverProvider.document this))
                 (HoverProvider.position this)) ],
     Returned None).
Proof.
  intros Ht Hd. unfold HoverProvider.getDefinitionInAntdModule.
  rewrite run_await. unfold calls, outcome. rewrite run_await. cbn [fst snd].
  fold (definitionsFor sv this) (typeDefinitionsFor sv this).
  fold (insideModule (definitionsFor sv this)) (insideModule (typeDefinitionsFor sv this)).
  rewrite Ht, Hd. reflexivity.
Qed.

Lemma insideModule_elem (answered : option (list Location)) (loc : Location) :
  loc ∈ insideModule answered ->
  loc ∈ default [] answered /\ matchNodeModules (path (locUri loc)) = true.
Proof.
  unfold insideModule. intros Hin. apply list_elem_of_In, filter_In in Hin as [Hin Hp].
  split; [now apply list_elem_of_In | exact Hp].
Qed.

Lemma insideModule_nil (answered : option (list Location)) :
  (forall loc, loc ∈ default [] answered -> matchNodeModules (path (locUri loc)) = false) ->
  insideModule answered = [].
Proof.
  unfold insideModule. intros Hout.
  induction (default [] answered) as [|d ds IH]; [reflexivity|].
  cbn. rewrite (Hout d) by left. apply IH. intros loc Hin. apply Hout. now right.
Qed.

End DefinitionFacts.

(** C7: the location a hover works from is the first type-definition
    location under the module path when there is one, also when a plain
    definition lies under the path as well; the first plain definition
    under the path when no type definition survives the filter; and [null]
    when neither does. *)
Theorem getDefinitionInAntdModule_prefers_type_definition `{Imports}
  (sv : Services) (this : HoverProvider.t) :
  (forall typeDefinition,
      head (insideModule (typeDefinitionsFor sv this)) = Some typeDefinition ->
      outcome sv (HoverProvider.getDefinitionInAntdModule this) = Returned (Some typeDefinition))
  /\ (forall definition,
      insideModule (typeDefinitionsFor sv this) = [] ->
      head (insideModule (definitionsFor sv this)) = Some definition ->
      outcome sv (HoverProvider.getDefinitionInAntdModule this) = Returned (Some definition))
  /\ (insideModule (typeDefinitionsFor sv this) = [] ->
      insideModule (definitionsFor sv this) = [] ->
      outcome sv (HoverProvider.getDefinitionInAntdModule this) = Returned None).
Proof.
  rewrite getDefinitionInAntdModule_outcome. unfold chosenLocation. split; [|split].
  - intros t Ht. destruct (insideModule (typeDefinitionsFor sv this)); cbn in Ht; congruence.
  - intros d Ht Hd. rewrite Ht. congruence.
  - intros Ht Hd. now rewrite Ht, Hd.
Qed.

Lemma getDefinitionInAntdModule_prefers_type_definition_witness :
  let H := Sample.imports Sample.columnCatalog ∅ in
  let this := Sample.hoverOn "Column" false in
  outcome (Sample.services (Some [Sample.outsideReact; Sample.insideColumn])
             (Some [Sample.insideInterface]) None None None)
          (HoverProvider.getDefinitionInAntdModule this)
  = Returned (Some Sample.insideInterface)
  /\ outcome (Sample.services (Some [Sample.outsideReact; Sample.insideColumn])
               (Some [Sample.outsideReact]) None None None)
            (HoverProvider.getDefinitionInAntdModule this)
     = Returned (Some Sample.insideColumn)
  /\ outcome (Sample.services (Some [Sample.outsideReact]) None None None None)
            (HoverProvider.getDefinitionInAntdModule this)
     = Returned None.
Proof.
  intros H this. split; [|split].
  - apply (proj1 (getDefinitionInAntdModule_prefers_type_definition
                    (Sample.services (Some [Sample.outsideReact; Sample.insideColumn])
                       (Some [Sample.insideInterface]) None None None) this)).
    reflexivity.
  - apply (proj1 (proj2 (getDefinitionInAntdModule_prefers_type_definition
                           (Sample.services (Some [Sample.outsideReact; Sample.insideColumn])
                              (Some [Sample.outsideReact]) None None None) this)));
      reflexivity.
  - apply (proj2 (proj2 (getDefinitionInAntdModule_prefers_type_definition
                           (Sample.services (Some [Sample.outsideReact]) None None None None)
                           this)));
      reflexivity.
Defined.

(** ** Hover resolution *)

Section HoverFacts.
Context `{Imports}.
Variables (sv : Services) (this : HoverProvider.t).

(** How a hover ends, by the location chosen, the container symbol and
    its classification. *)
Lemma provideHover_outcome :
  outcome sv (HoverProvider.provideHover this)
  = match chosenLocation sv this with
    | None => Returned None
    | Some definitionLoc =>
        match answer sv _ (GetContainerSymbolAtLocation definitionLoc) with
        | None => Returned None
        | Some interaceName =>
            match HoverProvider.getAstNodeType interaceName with
            | inl e => Thrown e
            | inr props => outcome sv (HoverProvider.propsHover this (hoveredWord this))
            | inr component =>
                outcome sv (HoverProvider.componentHover this definitionLoc interaceName)
            end
        end
    end.
Proof.
  unfold HoverProvider.provideHover, outcome at 1.
  rewrite run_bind, getDefinitionInAntdModule_outcome.
  destruct (chosenLocation sv this) as [definitionLoc|]; [|reflexivity].
  cbn [snd]. unfold outcome at 1. rewrite run_await. cbn [snd].
  destruct (answer sv _ (GetContainerSymbolAtLocation definitionLoc)) as [interaceName|];
    [|reflexivity].
  unfold outcome at 1. rewrite run_bind.
  destruct (HoverProvider.getAstNodeType interaceName) as [e|[|]]; reflexivity.
Qed.

(** A hover with no location inside the module path stops after the two
    definition services. *)
Lemma provideHover_run_foreign :
  insideModule (typeDefinitionsFor sv this) = [] ->
  insideModule (definitionsFor sv this) = [] ->
  run sv (HoverProvider.provideHover this)
  = ([ issued (ExecuteDefinitionProvider (uri (HoverProvider.document this))
                 (HoverProvider.position this));
       issued (ExecuteTypeDefinitionProvider (uri (HoverProvider.document this))
                 (HoverProvider.position this)) ],
     Returned None).
Proof.
  intros Ht Hd. unfold HoverProvider.provideHover.
  rewrite run_bind. unfold outcome, calls.
  rewrite (getDefinitionInAntdModule_run_none sv this Ht Hd). reflexivity.
Qed.

Lemma chosenLocation_inside (loc : Location) :
  chosenLocation sv this = Some loc ->
  matchNodeModules (path (locUri loc)) = true
  /\ (loc ∈ default [] (typeDefinitionsFor sv this)
      \/ loc ∈ default [] (definitionsFor sv this)).
Proof.
  unfold chosenLocation. intros Hc.
  destruct (insideModule (typeDefinitionsFor sv this)) as [|t ts] eqn:Et.
  - destruct (insideModule (definitionsFor sv this)) as [|d ds] eqn:Ed; [discriminate|].
    cbn in Hc. injection Hc as <-.
    destruct (insideModule_elem (definitionsFor sv this) d) as [Hin Hp].
    { rewrite Ed. left. }
    split; [exact Hp | now right].
  - injection Hc as <-.
    destruct (insideModule_elem (typeDefinitionsFor sv this) t) as [Hin Hp].
    { rewrite Et. left. }
    split; [exact Hp | now left].
Qed.

End HoverFacts.

(** C5: the location a hover works from is one of the answered locations
    and lies inside the installed module path of the library; when every
    answered definition and type definition lies outside that path the
    hover gives no result, and stops right after the two definition
    services; and a component whose definition path is not one of the
    library gives no hover either. *)
Theorem provideHover_filters_foreign_locations `{Imports}
  (sv : Services) (this : HoverProvider.t) :
  (exists chosen,
      outcome sv (HoverProvider.getDefinitionInAntdModule this) = Returned chosen
      /\ forall loc, chosen = Some loc ->
           matchNodeModules (path (locUri loc)) = true
           /\ (loc ∈ default [] (typeDefinitionsFor sv this)
               \/ loc ∈ default [] (definitionsFor sv this)))
  /\ ((forall loc, loc ∈ default [] (definitionsFor sv this) ->
         matchNodeModules (path (locUri loc)) = false) ->
      (forall loc, loc ∈ default [] (typeDefinitionsFor sv this) ->
         matchNodeModules (path (locUri loc)) = false) ->
      run sv (HoverProvider.provideHover this)
      = ([ issued (ExecuteDefinitionProvider (uri (HoverProvider.document this))
                     (HoverProvider.position this));
           issued (ExecuteTypeDefinitionProvider (uri (HoverProvider.document this))
                     (HoverProvider.position this)) ],
         Returned None))
  /\ (forall loc interaceName,
        chosenLocation sv this = Some loc ->
        answer sv _ (GetContainerSymbolAtLocation loc) = Some interaceName ->
        HoverProvider.getAstNodeType interaceName = inr component ->
        matchAntdModule (path (locUri loc)) = None ->
        outcome sv (HoverProvider.provideHover this) = Returned None).
Proof.
  split; [|split].
  - exists (chosenLocation sv this). split.
    + apply getDefinitionInAntdModule_outcome.
    + apply chosenLocation_inside.
  - intros Hd Ht. apply provideHover_run_foreign; now apply insideModule_nil.
  - intros loc name Hc Hn Ht Hm.
    rewrite provideHover_outcome, Hc, Hn, Ht.
    unfold HoverProvider.componentHover. now rewrite Hm.
Qed.

(** C10: the classifier fails on the empty name, reading the upper-case
    form of a first character that is not there, and answers on every
    other name; so a hover whose container symbol is the empty string ends
    in that failure, the guard before the classifier stopping on a [null]
    name only. *)
Theorem getAstNodeType_empty_name_crashes_hover `{Imports} :
  HoverProvider.getAstNodeType "" = inl JS.TypeError
  /\ (forall name, name <> "" -> exists nodeType, HoverProvider.getAstNodeType name = inr nodeType)
  /\ (forall (sv : Services) (this : HoverProvider.t) (loc : Location),
        outcome sv (HoverProvider.getDefinitionInAntdModule this) = Returned (Some loc) ->
        (answer sv _ (GetContainerSymbolAtLocation loc) = Some "" ->
           outcome sv (HoverProvider.provideHover this) = Thrown JS.TypeError)
        /\ (answer sv _ (GetContainerSymbolAtLocation loc) = None ->
           outcome sv (HoverProvider.provideHover this) = Returned None)).
Proof.
  split; [reflexivity|split].
  - intros [|c rest] Hne; [contradiction|].
    rewrite getAstNodeType_cons. eauto.
  - intros sv this loc Hloc.
    rewrite getDefinitionInAntdModule_outcome in Hloc. injection Hloc as Hloc.
    split; intros Hn; now rewrite provideHover_outcome, Hloc, Hn.
Qed.

Lemma provideHover_filters_foreign_locations_witness :
  let H := Sample.imports Sample.columnCatalog Sample.buttonDocs in
  let this := Sample.hoverOn "Column" false in
  outcome (Sample.services (Some [Sample.outsideReact]) (Some [Sample.outsideReact])
             (Some "Column") (Some "Button") None)
          (HoverProvider.provideHover this)
  = Returned None
  /\ exists card,
      outcome (Sample.services (Some [Sample.insideColumn]) (Some [Sample.insideColumn])
                 (Some "Column") (Some "Button") None)
              (HoverProvider.provideHover this)
      = Returned (Some card).
Proof.
  intros H this. split.
  - apply (f_equal snd
             (proj1 (proj2 (provideHover_filters_foreign_locations
                              (Sample.services (Some [Sample.outsideReact])
                                 (Some [Sample.outsideReact]) (Some "Column") (Some "Button")
                                 None) this))
                (fun loc Hin => ltac:(enumerate_keys Hin; reflexivity))
                (fun loc Hin => ltac:(enumerate_keys Hin; reflexivity)))).
  - eexists. vm_compute. reflexivity.
Defined.

Lemma getAstNodeType_empty_name_crashes_hover_witness :
  let H := Sample.imports Sample.columnCatalog Sample.buttonDocs in
  outcome (Sample.services None (Some [Sample.insideInterface]) (Some "") (Some "Button") None)
          (HoverProvider.provideHover (Sample.hoverOn "onClick" false))
  = Thrown JS.TypeError.
Proof.
  intros H.
  refine (proj1 (proj2 (proj2 getAstNodeType_empty_name_crashes_hover)
                   (Sample.services None (Some [Sample.insideInterface]) (Some "")
                      (Some "Button") None)
                   (Sample.hoverOn "onClick" false) Sample.insideInterface _) _);
    reflexivity.
Defined.

(** ** Catalog entries without documentation *)

(** A catalog entry with no record in the documentation table ends the
    props hover in the error of the extension. *)
Lemma provideHover_missing_component_record `{Imports}
  (sv : Services) (this : HoverProvider.t) (loc : Location) (interaceName name key : string) :
  chosenLocation sv this = Some loc ->
  answer sv _ (GetContainerSymbolAtLocation loc) = Some interaceName ->
  HoverProvider.getAstNodeType interaceName = inr props ->
  answer sv _ (GetClosetAntdJsxElementNode (HoverProvider.document this)
                 (HoverProvider.position this)) = Some name ->
  name <> "" ->
  HoverProvider.fuzzySearchComponentMapping name = Some key ->
  antdDocJson (HoverProvider.language this) !! key = None ->
  outcome sv (HoverProvider.provideHover this)
  = Thrown (JS.AntdRushError ("did not match component for " ++ key)).
Proof.
  intros Hc Hn Ht Hj Hne Hf Hd.
  rewrite provideHover_outcome, Hc, Hn, Ht.
  unfold HoverProvider.propsHover, outcome. rewrite run_await. cbn [snd]. rewrite Hj.
  unfold JS.truthy. destruct (String.eqb_spec name ""); [contradiction|].
  cbn [negb]. now rewrite Hf, Hd.
Qed.

(** C2, the code on a record that lacks the hovered prop: the catalog
    entry of the enclosing component is found and the documentation table
    has its record, but the record has no entry for the hovered prop; the
    hover then ends in the [TypeError] of reading [description] off a
    missing entry, not in the consistency error of the extension. *)
Theorem provideHover_missing_prop_record `{Imports}
  (sv : Services) (this : HoverProvider.t) (loc : Location) (interaceName name key : string)
  (record : gmap string PropDoc) :
  chosenLocation sv this = Some loc ->
  answer sv _ (GetContainerSymbolAtLocation loc) = Some interaceName ->
  HoverProvider.getAstNodeType interaceName = inr props ->
  answer sv _ (GetClosetAntdJsxElementNode (HoverProvider.document this)
                 (HoverProvider.position this)) = Some name ->
  name <> "" ->
  HoverProvider.fuzzySearchComponentMapping name = Some key ->
  antdDocJson (HoverProvider.language this) !! key = Some record ->
  record !! hoveredWord this = None ->
  outcome sv (HoverProvider.provideHover this) = Thrown JS.TypeError.
Proof.
  intros Hc Hn Ht Hj Hne Hf Hd Hp.
  rewrite provideHover_outcome, Hc, Hn, Ht.
  unfold HoverProvider.propsHover, outcome. rewrite run_await. cbn [snd]. rewrite Hj.
  unfold JS.truthy. destruct (String.eqb_spec name ""); [contradiction|].
  cbn [negb]. now rewrite Hf, Hd, Hp.
Qed.

Lemma provideHover_missing_prop_record_witness :
  let H := Sample.imports Sample.columnCatalog Sample.buttonDocs in
  outcome (Sample.services None (Some [Sample.insideInterface]) (Some "onFocus")
             (Some "Button") None)
          (HoverProvider.provideHover (Sample.hoverOn "onFocus" false))
  = Thrown JS.TypeError.
Proof.
  intros H.
  apply (provideHover_missing_prop_record
           (Sample.services None (Some [Sample.insideInterface]) (Some "onFocus")
              (Some "Button") None)
           (Sample.hoverOn "onFocus" false) Sample.insideInterface "onFocus" "Button" "Button"
           {[ "onClick" := Sample.buttonDoc ]});
    try reflexivity.
  discriminate.
Defined.

(** ** Cancellation *)

(** X15: a completion request whose token is cancelled returns the empty
    list at once: its body is a plain return, so no service is asked. *)
Lemma provideCompletionItems_cancelled `{Imports} (this : AntdProvideCompletionItem.t) :
  isCancellationRequested (AntdProvideCompletionItem.token this) = true ->
  AntdProvideCompletionItem.provideCompletionItems this = Ret []
  /\ forall sv, run sv (AntdProvideCompletionItem.provideCompletionItems this) = ([], Returned []).
Proof.
  intros Hc. unfold AntdProvideCompletionItem.provideCompletionItems. rewrite Hc.
  split; reflexivity.
Qed.

(** C4, the code on a hover whose token is cancelled: the hover never
    reads its token; with the token cancelled it still asks the definition
    service and the type-definition service, and goes on from their
    answers as it does with a live token. *)
Theorem provideHover_ignores_cancellation `{Imports}
  (sv : Services) (this : HoverProvider.t) :
  isCancellationRequested (HoverProvider.token this) = true ->
  (exists later,
      calls sv (HoverProvider.provideHover this)
      = issued (ExecuteDefinitionProvider (uri (HoverProvider.document this))
                  (HoverProvider.position this))
        :: issued (ExecuteTypeDefinitionProvider (uri (HoverProvider.document this))
                     (HoverProvider.position this))
        :: later)
  /\ run sv (HoverProvider.provideHover this)
     = run sv (HoverProvider.provideHover
                 {| HoverProvider.document := HoverProvider.document this;
                    HoverProvider.position := HoverProvider.position this;
                    HoverProvider.token := {| isCancellationRequested := false |};
                    HoverProvider.language := HoverProvider.language this |}).
Proof.
  intros _. split; [|reflexivity].
  unfold HoverProvider.provideHover, calls. rewrite run_bind.
  destruct (getDefinitionInAntdModule_calls sv this) as [logged Hl].
  destruct (outcome sv (HoverProvider.getDefinitionInAntdModule this)) as [chosen|e];
    cbn [fst]; rewrite Hl; eexists; reflexivity.
Qed.

Lemma provideHover_ignores_cancellation_witness :
  let H := Sample.imports Sample.columnCatalog Sample.buttonDocs in
  let sv := Sample.services None (Some [Sample.insideInterface]) (Some "onClick")
              (Some "Button") None in
  let this := Sample.hoverOn "onClick" true in
  (exists later,
      calls sv (HoverProvider.provideHover this)
      = issued (ExecuteDefinitionProvider (uri (HoverProvider.document this))
                  (HoverProvider.position this))
        :: issued (ExecuteTypeDefinitionProvider (uri (HoverProvider.document this))
                     (HoverProvider.position this))
        :: later)
  /\ exists card, outcome sv (HoverProvider.provideHover this) = Returned (Some card).
Proof.
  intros H sv this. split.
  - apply (provideHover_ignores_cancellation sv this). reflexivity.
  - eexists. vm_compute. reflexivity.
Defined.

(** ** Completion resolution *)

Lemma readEntry_Some {V : Type} (name : string) (entries : list (string * V)) (v : V) :
  assoc name entries = Some v -> readEntry name entries = Own v.
Proof. unfold readEntry. now intros ->. Qed.

Lemma readEntry_None {V : Type} (name : string) (entries : list (string * V)) :
  assoc name entries = None ->
  readEntry name entries = if JS.inherited name then Inherited else Missing.
Proof. unfold readEntry. now intros ->. Qed.

(** X18: a completion request that is answered no enclosing component, or
    the name of a catalog entry that has no handler list or an empty one,
    returns the empty list; it does not throw. *)
Theorem provideCompletionItems_absence `{Imports}
  (sv : Services) (this : AntdProvideCompletionItem.t) :
  (answer sv _ (GetClosetAntdJsxElementNode (AntdProvideCompletionItem.document this)
                  (AntdProvideCompletionItem.position this)) = None ->
     outcome sv (AntdProvideCompletionItem.provideCompletionItems this) = Returned [])
  /\ (forall componentName entry,
        answer sv _ (GetClosetAntdJsxElementNode (AntdProvideCompletionItem.document this)
                       (AntdProvideCompletionItem.position this)) = Some componentName ->
        assoc componentName antdComponentMap = Some entry ->
        methods entry = None \/ methods entry = Some [] ->
        outcome sv (AntdProvideCompletionItem.provideCompletionItems this) = Returned []).
Proof.
  unfold AntdProvideCompletionItem.provideCompletionItems, outcome.
  destruct (isCancellationRequested (AntdProvideCompletionItem.token this));
    [split; intros; reflexivity|].
  rewrite run_await. cbn [snd]. split.
  - intros Hj. now rewrite Hj.
  - intros componentName entry Hj Ha Hm. rewrite Hj, (readEntry_Some _ _ _ Ha).
    destruct Hm as [Hm|Hm]; now rewrite Hm.
Qed.

Lemma provideCompletionItems_absence_witness :
  let H := Sample.imports Sample.dividerCatalog Sample.buttonDocs in
  let this := Sample.completionOn (Some "#") false in
  outcome (Sample.services None None None None None)
          (AntdProvideCompletionItem.provideCompletionItems this) = Returned []
  /\ outcome (Sample.services None None None (Some "Divider") None)
             (AntdProvideCompletionItem.provideCompletionItems this) = Returned [].
Proof.
  intros H this. split.
  - apply (proj1 (provideCompletionItems_absence (Sample.services None None None None None)
                    this)).
    reflexivity.
  - apply (proj2 (provideCompletionItems_absence
                    (Sample.services None None None (Some "Divider") None) this)
             "Divider" {| methods := None |}); [reflexivity | reflexivity | now left].
Defined.

(** C3, the code on a component name that is no key of the catalog: for
    an enclosing element that is no known component the request does not
    return the empty list.  The read of [methods] off the missing catalog
    entry ends it in a [TypeError], before the test that was to return the
    empty list for an element not from the library. *)
Theorem provideCompletionItems_unknown_name `{Imports}
  (sv : Services) (this : AntdProvideCompletionItem.t) (componentName : string) :
  isCancellationRequested (AntdProvideCompletionItem.token this) = false ->
  answer sv _ (GetClosetAntdJsxElementNode (AntdProvideCompletionItem.document this)
                 (AntdProvideCompletionItem.position this)) = Some componentName ->
  assoc componentName antdComponentMap = None ->
  JS.inherited componentName = false ->
  run sv (AntdProvideCompletionItem.provideCompletionItems this)
  = ([issued (GetClosetAntdJsxElementNode (AntdProvideCompletionItem.document this)
                (AntdProvideCompletionItem.position this))],
     Thrown JS.TypeError).
Proof.
  intros Hc Hj Ha Hi. unfold AntdProvideCompletionItem.provideCompletionItems.
  rewrite Hc, run_await. unfold calls, outcome.
  now rewrite Hj, (readEntry_None _ _ Ha), Hi.
Qed.

Lemma provideCompletionItems_unknown_name_witness :
  let H := Sample.imports Sample.columnCatalog Sample.buttonDocs in
  outcome (Sample.services None None None (Some "div") None)
          (AntdProvideCompletionItem.provideCompletionItems
             (Sample.completionOn (Some "#") false))
  = Thrown JS.TypeError.
Proof.
  intros H.
  refine (f_equal snd
            (provideCompletionItems_unknown_name
               (Sample.services None None None (Some "div") None)
               (Sample.completionOn (Some "#") false) "div" _ _ _ _));
    reflexivity.
Defined.

(** The candidates of a request are the items of the handlers of the
    enclosing component, in the order of the catalog. *)
Lemma provideCompletionItems_items `{Imports}
  (sv : Services) (this : AntdProvideCompletionItem.t) (componentName : string)
  (entry : ComponentMeta) (availableHandler : list string) :
  isCancellationRequested (AntdProvideCompletionItem.token this) = false ->
  answer sv _ (GetClosetAntdJsxElementNode (AntdProvideCompletionItem.document this)
                 (AntdProvideCompletionItem.position this)) = Some componentName ->
  assoc componentName antdComponentMap = Some entry ->
  methods entry = Some availableHandler ->
  outcome sv (AntdProvideCompletionItem.provideCompletionItems this)
  = Returned
      (map (fun handlerName =>
              AntdProvideCompletionItem.transformHandlerToItem this componentName handlerName
                (answer sv _ (GetParentsWhen (AntdProvideCompletionItem.document this)
                                (AntdProvideCompletionItem.position this)
                                isClassExtendsReactComponent outward)))
           availableHandler).
Proof.
  intros Hc Hj Ha Hm. unfold AntdProvideCompletionItem.provideCompletionItems, outcome.
  rewrite Hc, run_await. cbn [snd]. rewrite Hj, (readEntry_Some _ _ _ Ha), Hm. reflexivity.
Qed.

(** ** Insertion style *)

Lemma assoc_insertKindMapping (c : string) :
  assoc c AntdProvideCompletionItem.insertKindMapping
  = if String.eqb "!" c then Some direct else if String.eqb "#" c then Some inquiry else None.
Proof. reflexivity. Qed.

(** The claim as worded fails: a trigger character other than [!] and [#]
    selects no insertion style at all, and the item gets no insertion
    text. *)
Lemma transformHandlerToItem_other_trigger_counterexample :
  ~ (forall (H : Imports) (this : AntdProvideCompletionItem.t)
            (componentName handlerName : string) (parent : option ClassDeclaration),
        triggerCharacter (AntdProvideCompletionItem.context this) <> Some "!" ->
        let item :=
          AntdProvideCompletionItem.transformHandlerToItem this componentName handlerName parent in
        insertKindOf item = Some inquiry /\ insertText item = Some handlerName).
Proof.
  intros Hall.
  destruct (Hall (Sample.imports Sample.columnCatalog Sample.buttonDocs)
              (Sample.completionOn (Some "@") false) "Button" "onClick" None) as [Hk _].
  - discriminate.
  - vm_compute in Hk. discriminate.
Qed.

(** C6 (amended): the insertion style of an item comes from the trigger
    character of the request.  [!] gives the direct form, with the
    assignment as insertion text; [#], an empty or an absent trigger
    character give the inquiry form, with the handler name itself as
    insertion text; any other trigger character gives no style and no
    insertion text. *)
Theorem transformHandlerToItem_insertion_style `{Imports}
  (this : AntdProvideCompletionItem.t) (componentName handlerName : string)
  (parent : option ClassDeclaration) :
  let trigger := triggerCharacter (AntdProvideCompletionItem.context this) in
  let item :=
    AntdProvideCompletionItem.transformHandlerToItem this componentName handlerName parent in
  (trigger = Some "!" ->
     insertKindOf item = Some direct
     /\ insertText item
        = Some (handlerName ++ "={" ++ match parent with Some _ => "this." | None => "" end
                ++ addHandlerPrefix handlerName ++ "} "))
  /\ (trigger = Some "#" \/ trigger = Some "" \/ trigger = None ->
     insertKindOf item = Some inquiry /\ insertText item = Some handlerName)
  /\ (forall c, trigger = Some c -> c <> "!" -> c <> "#" -> c <> "" ->
     insertKindOf item = None /\ insertText item = None).
Proof.
  intros trigger item. subst trigger item.
  unfold AntdProvideCompletionItem.transformHandlerToItem, insertKindOf.
  cbn [insertText itemCommand arguments fst snd].
  split; [|split].
  - intros Ht. rewrite Ht. cbn. destruct parent; split; reflexivity.
  - intros [Ht|[Ht|Ht]]; rewrite Ht; split; reflexivity.
  - intros c Ht H1 H2 H3. rewrite Ht, assoc_insertKindMapping.
    unfold JS.orElse, JS.truthy.
    destruct (String.eqb_spec c ""); [contradiction|]. cbn [negb].
    destruct (String.eqb_spec "!" c); [congruence|].
    destruct (String.eqb_spec "#" c); [congruence|].
    split; reflexivity.
Qed.

Lemma transformHandlerToItem_insertion_style_witness :
  let H := Sample.imports Sample.columnCatalog Sample.buttonDocs in
  let inClass :=
    AntdProvideCompletionItem.transformHandlerToItem
      (Sample.completionOn (Some "!") false) "Button" "onClick" (Some (ClassNode 7)) in
  let absent :=
    AntdProvideCompletionItem.transformHandlerToItem
      (Sample.completionOn None false) "Button" "onClick" None in
  let other :=
    AntdProvideCompletionItem.transformHandlerToItem
      (Sample.completionOn (Some "@") false) "Button" "onClick" None in
  (insertKindOf inClass = Some direct
   /\ insertText inClass = Some "onClick={this.handleonClick} ")
  /\ (insertKindOf absent = Some inquiry /\ insertText absent = Some "onClick")
  /\ (insertKindOf other = None /\ insertText other = None).
Proof.
  intros H inClass absent other. split; [|split].
  - exact (proj1 (transformHandlerToItem_insertion_style
                    (Sample.completionOn (Some "!") false) "Button" "onClick"
                    (Some (ClassNode 7))) eq_refl).
  - exact (proj1 (proj2 (transformHandlerToItem_insertion_style
                           (Sample.completionOn None false) "Button" "onClick" None))
             (or_intror (or_intror eq_refl))).
  - refine (proj2 (proj2 (transformHandlerToItem_insertion_style
                            (Sample.completionOn (Some "@") false) "Button" "onClick" None))
              "@" eq_refl _ _ _); discriminate.
Defined.

(** ** End to end *)

(** [<Button #]: two candidates, [onClick] and [onFocus], each inserting
    its own name, after one question to each of the two tree services. *)
Example provideCompletionItems_button :
  let H := Sample.imports Sample.columnCatalog Sample.buttonDocs in
  let this := Sample.completionOn (Some "#") false in
  let sv := Sample.services None None None (Some "Button") None in
  exists items,
    run sv (AntdProvideCompletionItem.provideCompletionItems this)
    = ([ issued (GetClosetAntdJsxElementNode (AntdProvideCompletionItem.document this)
                   (AntdProvideCompletionItem.position this));
         issued (GetParentsWhen (AntdProvideCompletionItem.document this)
                   (AntdProvideCompletionItem.position this)
                   isClassExtendsReactComponent outward) ],
       Returned items)
    /\ map label items = ["onClick"; "onFocus"]
    /\ map insertText items = [Some "onClick"; Some "onFocus"]
    /\ map insertKindOf items = [Some inquiry; Some inquiry].
Proof. intros H this sv. eexists. repeat split. Qed.

(** A component hover that goes through: [Column], defined in the folder
    [Table] of the library, shows the card of [TableColumn]. *)
Example provideHover_column :
  let H := Sample.imports Sample.columnCatalog Sample.buttonDocs in
  let sv := Sample.services (Some [Sample.outsideReact]) (Some [Sample.insideColumn])
              (Some "Column") None None in
  outcome sv (HoverProvider.provideHover (Sample.hoverOn "Column" false))
  = Returned (Some {| contents :=
       [ Markdown ("**TableColumn** componentHint [ "
                   ++ "[EN](https://ant.design/components/Table) | "
                   ++ "[中文](https://ant.design/components/Table) ]");
         Markdown "| Property | Description |" ] |}).
Proof. intros H sv. vm_compute. reflexivity. Qed.

(** A props hover with a record in the documentation table. *)
Example provideHover_onClick :
  let H := Sample.imports Sample.columnCatalog Sample.buttonDocs in
  let sv := Sample.services None (Some [Sample.insideInterface]) (Some "onClick")
              (Some "Button") None in
  outcome sv (HoverProvider.provideHover (Sample.hoverOn "onClick" false))
  = Returned (Some {| contents :=
       [ Markdown "description=set the handler to handle click event|type=(event) => void|default=-|version=" ] |}).
Proof. intros H sv. vm_compute. reflexivity. Qed.

(** A catalog entry whose component has no record in the documentation
    table: the hover ends in the error of the extension. *)
Example provideHover_missing_component_record_TableColumn :
  let H := Sample.imports Sample.columnCatalog Sample.buttonDocs in
  let sv := Sample.services None (Some [Sample.insideInterface]) (Some "title")
              (Some "Table.Column") None in
  outcome sv (HoverProvider.provideHover (Sample.hoverOn "title" false))
  = Thrown (JS.AntdRushError "did not match component for TableColumn").
Proof. intros H sv. vm_compute. reflexivity. Qed.

(** * Further properties of the two providers *)

(** ** Normalised names *)

Lemma append_cons (c : ascii) (a b : string) : String c a ++ b = String c (a ++ b).
Proof. reflexivity. Qed.

Lemma removeDots_app (a b : string) : removeDots (a ++ b) = removeDots a ++ removeDots b.
Proof.
  induction a as [|c r IH]; [reflexivity|].
  rewrite append_cons. cbn [removeDots]. rewrite IH.
  destruct (Ascii.eqb c "."); reflexivity.
Qed.

Lemma toLowerCase_app (a b : string) :
  JS.toLowerCase (a ++ b) = JS.toLowerCase a ++ JS.toLowerCase b.
Proof.
  induction a as [|c r IH]; [reflexivity|].
  rewrite append_cons. cbn [JS.toLowerCase]. now rewrite IH.
Qed.

Lemma normalize_spec_app (a b : string) :
  normalize_spec (a ++ b) = normalize_spec a ++ normalize_spec b.
Proof. unfold normalize_spec. now rewrite removeDots_app, toLowerCase_app. Qed.

(** X1: on names of ASCII characters normalisation goes through
    concatenation: the normalised concatenation of two such names is the
    concatenation of their normalised forms. *)
Theorem normalizeName_app (a b : string) :
  isAscii a = true -> isAscii b = true ->
  HoverProvider.normalizeName (a ++ b)
  = HoverProvider.normalizeName a ++ HoverProvider.normalizeName b.
Proof. intros _ _. rewrite !normalizeName_spec. apply normalize_spec_app. Qed.

Lemma normalizeName_app_witness :
  HoverProvider.normalizeName ("Table" ++ "Col.umn") = "table" ++ "column".
Proof. apply (normalizeName_app "Table" "Col.umn"); reflexivity. Defined.

Lemma charToLowerCase_normal (c : ascii) :
  Ascii.eqb c "." = false -> normalChar (JS.charToLowerCase c) = true.
Proof. destruct c as [[] [] [] [] [] [] [] []]; vm_compute; congruence. Qed.

Lemma charToLowerCase_fixed (c : ascii) :
  JS.isUpperAZ c = false -> JS.charToLowerCase c = c.
Proof. unfold JS.charToLowerCase. now intros ->. Qed.

Lemma normalize_spec_allChars (s : string) : allChars normalChar (normalize_spec s) = true.
Proof.
  unfold normalize_spec.
  induction s as [|c r IH]; [reflexivity|].
  cbn [removeDots]. destruct (Ascii.eqb c ".") eqn:E; [exact IH|].
  cbn [JS.toLowerCase allChars]. now rewrite charToLowerCase_normal, IH.
Qed.

Lemma normalize_spec_fixed (s : string) :
  allChars normalChar s = true -> normalize_spec s = s.
Proof.
  unfold normalize_spec.
  induction s as [|c r IH]; [reflexivity|].
  cbn [allChars]. intros [Hc Hr]%andb_prop.
  unfold normalChar in Hc. apply andb_prop in Hc as [Hdot Hup].
  apply negb_true_iff in Hdot, Hup.
  cbn [removeDots]. rewrite Hdot. cbn [JS.toLowerCase].
  now rewrite (charToLowerCase_fixed c Hup), IH.
Qed.

Lemma removeDots_length (s : string) : String.length (removeDots s) <= String.length s.
Proof.
  induction s as [|c r IH]; [reflexivity|].
  cbn [removeDots]. destruct (Ascii.eqb c "."); cbn [String.length]; lia.
Qed.

Lemma toLowerCase_length (s : string) : String.length (JS.toLowerCase s) = String.length s.
Proof. induction s as [|c r IH]; [reflexivity|]. cbn. now rewrite IH. Qed.

(** X2: the normalised form of a name of ASCII characters holds no [.]
    and none of [A]..[Z], and is no longer than the name; the ASCII names
    that normalisation leaves alone are exactly those made of such
    characters. *)
Theorem normalizeName_normal_form (s : string) :
  isAscii s = true ->
  allChars normalChar (HoverProvider.normalizeName s) = true
  /\ String.length (HoverProvider.normalizeName s) <= String.length s
  /\ (HoverProvider.normalizeName s = s <-> allChars normalChar s = true).
Proof.
  intros _. rewrite normalizeName_spec. split; [apply normalize_spec_allChars|split].
  - unfold normalize_spec. rewrite toLowerCase_length. apply removeDots_length.
  - split.
    + intros <-. apply normalize_spec_allChars.
    + apply normalize_spec_fixed.
Qed.

Lemma normalizeName_normal_form_witness :
  allChars normalChar (HoverProvider.normalizeName "Table.Column") = true
  /\ String.length (HoverProvider.normalizeName "Table.Column") <= 12.
Proof.
  destruct (normalizeName_normal_form "Table.Column") as (Hn & Hl & _); [reflexivity|].
  exact (conj Hn Hl).
Defined.

Lemma charToUpperCase_dot (c : ascii) :
  Ascii.eqb (JS.charToUpperCase c) "." = Ascii.eqb c ".".
Proof. destruct c as [[] [] [] [] [] [] [] []]; reflexivity. Qed.

Lemma charToLowerCase_upper (c : ascii) :
  JS.charToLowerCase (JS.charToUpperCase c) = JS.charToLowerCase c.
Proof. destruct c as [[] [] [] [] [] [] [] []]; reflexivity. Qed.

Lemma normalize_spec_toUpperCase (s : string) :
  normalize_spec (JS.toUpperCase s) = normalize_spec s.
Proof.
  unfold normalize_spec.
  induction s as [|c r IH]; [reflexivity|].
  cbn [JS.toUpperCase removeDots]. rewrite charToUpperCase_dot.
  destruct (Ascii.eqb c "."); [exact IH|].
  cbn [JS.toLowerCase]. now rewrite charToLowerCase_upper, IH.
Qed.

Lemma normalize_spec_toLowerCase (s : string) :
  normalize_spec (JS.toLowerCase s) = normalize_spec s.
Proof.
  unfold normalize_spec. now rewrite removeDots_toLowerCase, toLowerCase_idem.
Qed.

(** X3: on names of ASCII characters normalisation does not see the
    case of the letters nor the dots: the upper-case and the lower-case
    form of such a name, and the name with a [.] put anywhere into it,
    normalise as the name does. *)
Theorem normalizeName_insensitive (a b : string) :
  isAscii a = true -> isAscii b = true ->
  HoverProvider.normalizeName (JS.toUpperCase a) = HoverProvider.normalizeName a
  /\ HoverProvider.normalizeName (JS.toLowerCase a) = HoverProvider.normalizeName a
  /\ HoverProvider.normalizeName (a ++ "." ++ b) = HoverProvider.normalizeName (a ++ b).
Proof.
  intros _ _. rewrite !normalizeName_spec. split; [|split].
  - apply normalize_spec_toUpperCase.
  - apply normalize_spec_toLowerCase.
  - now rewrite !normalize_spec_app.
Qed.

Lemma normalizeName_insensitive_witness :
  HoverProvider.normalizeName "TABLE" = HoverProvider.normalizeName "Table"
  /\ HoverProvider.normalizeName "Table.Column" = HoverProvider.normalizeName "TableColumn".
Proof.
  destruct (normalizeName_insensitive "Table" "Column") as (Hu & _ & Hd); try reflexivity.
  exact (conj Hu Hd).
Defined.

(** ** The matcher, whatever the catalog *)

Section MatcherMore.
Context `{Imports}.

Lemma assoc_key {V : Type} (key : string) (entries : list (string * V)) :
  In key (map fst entries) -> exists v, assoc key entries = Some v.
Proof.
  induction entries as [|[k v] rest IH]; [contradiction|].
  cbn. intros [->|Hin].
  - rewrite String.eqb_refl. eauto.
  - destruct (String.eqb k key); eauto.
Qed.

Lemma truthy_nonempty (s : string) : JS.truthy s = true <-> s <> "".
Proof.
  unfold JS.truthy. destruct (String.eqb_spec s ""); cbn; split; congruence.
Qed.

(** A key given by [fuzzySearchComponentMapping] is a key of the catalog
    that is not empty and equals the name up to normalisation. *)
Lemma fuzzySearchComponentMapping_Some (name key : string) :
  HoverProvider.fuzzySearchComponentMapping name = Some key ->
  key ∈ Object_keys /\ key <> ""
  /\ HoverProvider.normalizeName key = HoverProvider.normalizeName name.
Proof.
  unfold HoverProvider.fuzzySearchComponentMapping.
  destruct (find _ Object_keys) as [found|] eqn:E; cbn; [|discriminate].
  destruct (JS.truthy found) eqn:T; cbn; [|discriminate].
  intros [= <-]. apply find_some in E as [Hin Heq].
  repeat split.
  - now apply list_elem_of_In.
  - now apply truthy_nonempty.
  - now apply String.eqb_eq.
Qed.

Lemma tryMatchComponentName_firstOf (symbolName libName : string) :
  HoverProvider.tryMatchComponentName symbolName libName
  = firstOf (HoverProvider.fuzzySearchComponentMapping symbolName)
            (HoverProvider.fuzzySearchComponentMapping libName)
            (HoverProvider.fuzzySearchComponentMapping (libName ++ symbolName)).
Proof.
  unfold HoverProvider.tryMatchComponentName, HoverProvider.fuzzySearchComponentMapping, firstOf.
  repeat match goal with
         | |- context [find ?f Object_keys] => destruct (find f Object_keys); cbn
         end;
    repeat match goal with
           | |- context [JS.truthy ?k] => destruct (JS.truthy k); cbn
           end;
    reflexivity.
Qed.

(** A key given by [tryMatchComponentName] is given by one of the three
    searches. *)
Lemma tryMatchComponentName_Some (symbolName libName key : string) :
  HoverProvider.tryMatchComponentName symbolName libName = Some key ->
  exists name,
    HoverProvider.fuzzySearchComponentMapping name = Some key
    /\ (name = symbolName \/ name = libName \/ name = libName ++ symbolName).
Proof.
  rewrite tryMatchComponentName_firstOf. unfold firstOf. intros Hk.
  destruct (HoverProvider.fuzzySearchComponentMapping symbolName) eqn:E1.
  - injection Hk as ->. eauto.
  - destruct (HoverProvider.fuzzySearchComponentMapping libName) eqn:E2.
    + injection Hk as ->. eauto.
    + eauto 6.
Qed.

(** The guard on [antdComponentMap[comName]] of the component card cannot
    fire: the catalog has an entry for every key the matcher gives. *)
Lemma tryMatchComponentName_entry (symbolName libName key : string) :
  HoverProvider.tryMatchComponentName symbolName libName = Some key ->
  exists entry, assoc key antdComponentMap = Some entry.
Proof.
  intros (name & Hf & _)%tryMatchComponentName_Some.
  apply fuzzySearchComponentMapping_Some in Hf as (Hin & _).
  apply assoc_key. now apply list_elem_of_In.
Qed.

Lemma fuzzySearchComponentMapping_normalised (a b : string) :
  HoverProvider.normalizeName a = HoverProvider.normalizeName b ->
  HoverProvider.fuzzySearchComponentMapping a = HoverProvider.fuzzySearchComponentMapping b.
Proof. unfold HoverProvider.fuzzySearchComponentMapping. now intros ->. Qed.

End MatcherMore.

(** X4: the three tiers of [tryMatchComponentName] are three runs of
    [fuzzySearchComponentMapping], on the symbol name, on the folder name
    and on folder name + symbol name, and the result is the first of them
    that gives a key.  This needs nothing of the catalog. *)
Theorem tryMatchComponentName_by_fuzzy_search `{Imports} (symbolName libName : string) :
  HoverProvider.tryMatchComponentName symbolName libName
  = firstOf (HoverProvider.fuzzySearchComponentMapping symbolName)
            (HoverProvider.fuzzySearchComponentMapping libName)
            (HoverProvider.fuzzySearchComponentMapping (libName ++ symbolName))
  /\ (forall key, HoverProvider.fuzzySearchComponentMapping symbolName = Some key ->
        HoverProvider.tryMatchComponentName symbolName libName = Some key)
  /\ (HoverProvider.tryMatchComponentName symbolName libName = None ->
        HoverProvider.fuzzySearchComponentMapping symbolName = None
        /\ HoverProvider.fuzzySearchComponentMapping libName = None).
Proof.
  rewrite tryMatchComponentName_firstOf. unfold firstOf. split; [reflexivity|split].
  - now intros key ->.
  - destruct (HoverProvider.fuzzySearchComponentMapping symbolName); [discriminate|].
    destruct (HoverProvider.fuzzySearchComponentMapping libName); [discriminate|]. easy.
Qed.

Lemma tryMatchComponentName_by_fuzzy_search_witness :
  let H := Sample.imports Sample.emptyKeyCatalog ∅ in
  HoverProvider.tryMatchComponentName "table" "Grid" = Some "Table"
  /\ HoverProvider.fuzzySearchComponentMapping "" = None.
Proof.
  intros H. split.
  - exact (proj1 (proj2 (tryMatchComponentName_by_fuzzy_search "table" "Grid"))
             "Table" eq_refl).
  - exact (proj1 (proj2 (proj2 (tryMatchComponentName_by_fuzzy_search "" "")) eq_refl)).
Defined.

(** X5: a key given by [tryMatchComponentName] is a key of the catalog,
    so the catalog has an entry for it; it is not the empty string; and it
    equals the symbol name, the folder name or folder name + symbol name
    up to normalisation. *)
Theorem tryMatchComponentName_sound `{Imports} (symbolName libName key : string) :
  HoverProvider.tryMatchComponentName symbolName libName = Some key ->
  key ∈ Object_keys
  /\ (exists entry, assoc key antdComponentMap = Some entry)
  /\ key <> ""
  /\ (HoverProvider.normalizeName key = HoverProvider.normalizeName symbolName
      \/ HoverProvider.normalizeName key = HoverProvider.normalizeName libName
      \/ HoverProvider.normalizeName key
         = HoverProvider.normalizeName libName ++ HoverProvider.normalizeName symbolName).
Proof.
  intros (name & Hf & Hname)%tryMatchComponentName_Some.
  apply fuzzySearchComponentMapping_Some in Hf as (Hin & Hne & Heq).
  split; [exact Hin|split; [|split; [exact Hne|]]].
  - apply assoc_key. now apply list_elem_of_In.
  - rewrite Heq. destruct Hname as [->|[->| ->]]; auto.
    right. right. rewrite !normalizeName_spec. apply normalize_spec_app.
Qed.

Lemma tryMatchComponentName_sound_witness :
  let H := Sample.imports Sample.columnCatalog ∅ in
  "TableColumn" ∈ Object_keys
  /\ exists entry, assoc "TableColumn" antdComponentMap = Some entry.
Proof.
  intros H.
  destruct (tryMatchComponentName_sound "Column" "Table" "TableColumn")
    as (Hin & Hentry & _); [reflexivity|].
  exact (conj Hin Hentry).
Defined.

(** X6: [tryMatchComponentName] sees two names of ASCII characters up
    to normalisation only: ASCII names that normalise alike resolve
    alike, in any catalog. *)
Theorem tryMatchComponentName_normalised `{Imports}
  (symbolName symbolName' libName libName' : string) :
  isAscii symbolName = true -> isAscii symbolName' = true ->
  isAscii libName = true -> isAscii libName' = true ->
  HoverProvider.normalizeName symbolName = HoverProvider.normalizeName symbolName' ->
  HoverProvider.normalizeName libName = HoverProvider.normalizeName libName' ->
  HoverProvider.tryMatchComponentName symbolName libName
  = HoverProvider.tryMatchComponentName symbolName' libName'.
Proof.
  intros _ _ _ _ Hs Hl. rewrite !tryMatchComponentName_firstOf.
  rewrite (fuzzySearchComponentMapping_normalised symbolName symbolName' Hs).
  rewrite (fuzzySearchComponentMapping_normalised libName libName' Hl).
  rewrite (fuzzySearchComponentMapping_normalised (libName ++ symbolName)
             (libName' ++ symbolName')); [reflexivity|].
  rewrite !normalizeName_spec, !normalize_spec_app, <- !normalizeName_spec. congruence.
Qed.

Lemma tryMatchComponentName_normalised_witness :
  let H := Sample.imports Sample.columnCatalog ∅ in
  HoverProvider.tryMatchComponentName "Col.umn" "TABLE"
  = HoverProvider.tryMatchComponentName "column" "table".
Proof.
  intros H.
  apply (tryMatchComponentName_normalised "Col.umn" "column" "TABLE" "table"); reflexivity.
Defined.

(** X7: in a catalog without an empty key and with keys distinct up to
    normalisation, every key is found again from any spelling that
    normalises as it does, the key itself among them; and a search gives
    nothing exactly when no key matches. *)
Theorem fuzzySearchComponentMapping_finds_keys `{Imports} (name : string) :
  keysNonEmpty -> keysUnique ->
  (forall key, key ∈ Object_keys ->
     HoverProvider.normalizeName name = HoverProvider.normalizeName key ->
     HoverProvider.fuzzySearchComponentMapping name = Some key)
  /\ (forall key, key ∈ Object_keys ->
        HoverProvider.fuzzySearchComponentMapping key = Some key)
  /\ (HoverProvider.fuzzySearchComponentMapping name = None <-> ~ catalogHas name).
Proof.
  intros Hne Hu. split; [|split].
  - intros key Hin Heq. rewrite fuzzySearchComponentMapping_matchExact by assumption.
    now apply matchExact_unique.
  - intros key Hin. rewrite fuzzySearchComponentMapping_matchExact by assumption.
    now apply matchExact_unique.
  - rewrite fuzzySearchComponentMapping_matchExact by assumption. apply matchExact_None.
Qed.

Lemma fuzzySearchComponentMapping_finds_keys_witness :
  let H := Sample.imports Sample.columnCatalog ∅ in
  HoverProvider.fuzzySearchComponentMapping "Table.Column" = Some "TableColumn"
  /\ HoverProvider.fuzzySearchComponentMapping "Button" = Some "Button".
Proof.
  intros H. split.
  - apply (proj1 (fuzzySearchComponentMapping_finds_keys "Table.Column"
                    columnCatalog_keysNonEmpty columnCatalog_keysUnique)).
    + apply list_elem_of_In. cbn. tauto.
    + reflexivity.
  - apply (proj1 (proj2 (fuzzySearchComponentMapping_finds_keys "Button"
                           columnCatalog_keysNonEmpty columnCatalog_keysUnique))).
    apply list_elem_of_In. cbn. tauto.
Defined.

(** ** The service calls of a hover *)

Section HoverCalls.
Context `{Imports}.
Variables (sv : Services) (this : HoverProvider.t).

Lemma getDefinitionInAntdModule_run_full :
  run sv (HoverProvider.getDefinitionInAntdModule this)
  = (issued (ExecuteDefinitionProvider (uri (HoverProvider.document this))
               (HoverProvider.position this))
     :: issued (ExecuteTypeDefinitionProvider (uri (HoverProvider.document this))
                  (HoverProvider.position this))
     :: multiplicityNotes (insideModule (typeDefinitionsFor sv this))
          (insideModule (definitionsFor sv this)),
     Returned (chosenLocation sv this)).
Proof.
  unfold HoverProvider.getDefinitionInAntdModule, chosenLocation, multiplicityNotes.
  rewrite run_await. unfold calls, outcome. rewrite run_await. cbn [fst snd].
  fold (definitionsFor sv this) (typeDefinitionsFor sv this).
  fold (insideModule (definitionsFor sv this)) (insideModule (typeDefinitionsFor sv this)).
  destruct (1 <? length (insideModule (typeDefinitionsFor sv this)))%nat;
    destruct (1 <? length (insideModule (definitionsFor sv this)))%nat;
    destruct (insideModule (typeDefinitionsFor sv this));
    destruct (insideModule (definitionsFor sv this)); reflexivity.
Qed.

Lemma propsHover_calls (propText : string) :
  calls sv (HoverProvider.propsHover this propText)
  = [issued (GetClosetAntdJsxElementNode (HoverProvider.document this)
               (HoverProvider.position this))].
Proof.
  unfold HoverProvider.propsHover, calls. rewrite run_await. cbn [fst]. f_equal.
  destruct (answer sv _ _) as [name|]; [|reflexivity].
  destruct (negb (JS.truthy name)); [reflexivity|].
  destruct (HoverProvider.fuzzySearchComponentMapping name) as [key|]; [|reflexivity].
  destruct (antdDocJson (HoverProvider.language this) !! key) as [record|]; [|reflexivity].
  destruct (record !! propText); reflexivity.
Qed.

Lemma componentHover_calls (loc : Location) (interaceName : string) :
  calls sv (HoverProvider.componentHover this loc interaceName) = [].
Proof.
  unfold HoverProvider.componentHover, calls.
  destruct (matchAntdModule _) as [m|]; [|reflexivity].
  destruct (HoverProvider.tryMatchComponentName _ _) as [comName|]; [|reflexivity].
  destruct (assoc comName antdComponentMap); [|reflexivity].
  destruct (rawTableJson (HoverProvider.language this) !! comName); reflexivity.
Qed.

Lemma provideHover_calls :
  calls sv (HoverProvider.provideHover this)
  = app (calls sv (HoverProvider.getDefinitionInAntdModule this)) (hoverFollowUp sv this).
Proof.
  unfold HoverProvider.provideHover, calls at 1, hoverFollowUp.
  rewrite run_bind, getDefinitionInAntdModule_outcome.
  cbn [fst]. f_equal.
  destruct (chosenLocation sv this) as [loc|]; [|reflexivity].
  unfold calls at 1. rewrite run_await. cbn [fst]. f_equal.
  destruct (answer sv _ (GetContainerSymbolAtLocation loc)) as [interaceName|]; [|reflexivity].
  unfold calls at 1. rewrite run_bind.
  destruct (HoverProvider.getAstNodeType interaceName) as [e|[|]]; cbn.
  - reflexivity.
  - apply componentHover_calls.
  - apply propsHover_calls.
Qed.

End HoverCalls.

(** X8: finding the definition location never fails.  It asks the
    definition service, then the type-definition service, and logs one
    line for the type definitions and one for the definitions when more
    than one of them lies inside the module path; the result is the
    location chosen all the same. *)
Theorem getDefinitionInAntdModule_run `{Imports} (sv : Services) (this : HoverProvider.t) :
  run sv (HoverProvider.getDefinitionInAntdModule this)
  = (issued (ExecuteDefinitionProvider (uri (HoverProvider.document this))
               (HoverProvider.position this))
     :: issued (ExecuteTypeDefinitionProvider (uri (HoverProvider.document this))
                  (HoverProvider.position this))
     :: multiplicityNotes (insideModule (typeDefinitionsFor sv this))
          (insideModule (definitionsFor sv this)),
     Returned (chosenLocation sv this))
  /\ (length (insideModule (typeDefinitionsFor sv this)) <= 1 ->
      length (insideModule (definitionsFor sv this)) <= 1 ->
      calls sv (HoverProvider.getDefinitionInAntdModule this)
      = [ issued (ExecuteDefinitionProvider (uri (HoverProvider.document this))
                    (HoverProvider.position this));
          issued (ExecuteTypeDefinitionProvider (uri (HoverProvider.document this))
                    (HoverProvider.position this)) ]).
Proof.
  split; [apply getDefinitionInAntdModule_run_full|].
  intros Ht Hd. unfold calls. rewrite getDefinitionInAntdModule_run_full.
  cbn [fst]. unfold multiplicityNotes.
  apply Nat.ltb_ge in Ht, Hd. now rewrite Ht, Hd.
Qed.

Lemma getDefinitionInAntdModule_run_witness :
  let H := Sample.imports Sample.columnCatalog ∅ in
  let this := Sample.hoverOn "Column" false in
  let sv := Sample.services (Some [Sample.outsideReact; Sample.insideColumn])
              (Some [Sample.insideInterface]) None None None in
  calls sv (HoverProvider.getDefinitionInAntdModule this)
  = [ issued (ExecuteDefinitionProvider (uri (HoverProvider.document this))
                (HoverProvider.position this));
      issued (ExecuteTypeDefinitionProvider (uri (HoverProvider.document this))
                (HoverProvider.position this)) ].
Proof.
  intros H this sv.
  apply (proj2 (getDefinitionInAntdModule_run sv this)); vm_compute; lia.
Defined.

(** X9: the calls of a hover, in order: the definition service, the
    type-definition service, the lines logged about more than one
    location, the container symbol of the chosen location when there is
    one, and the enclosing component when the container symbol is
    classified as a prop.  A hover asks nothing else; it never looks for
    an enclosing class. *)
Theorem provideHover_service_calls `{Imports} (sv : Services) (this : HoverProvider.t) :
  calls sv (HoverProvider.provideHover this)
  = app (issued (ExecuteDefinitionProvider (uri (HoverProvider.document this))
                   (HoverProvider.position this))
         :: issued (ExecuteTypeDefinitionProvider (uri (HoverProvider.document this))
                      (HoverProvider.position this))
         :: multiplicityNotes (insideModule (typeDefinitionsFor sv this))
              (insideModule (definitionsFor sv this)))
        (hoverFollowUp sv this)
  /\ length (calls sv (HoverProvider.provideHover this)) <= 6.
Proof.
  rewrite provideHover_calls.
  replace (calls sv (HoverProvider.getDefinitionInAntdModule this))
    with (fst (run sv (HoverProvider.getDefinitionInAntdModule this))) by reflexivity.
  rewrite getDefinitionInAntdModule_run_full. cbn [fst]. split; [reflexivity|].
  rewrite length_app. cbn [length]. unfold multiplicityNotes, hoverFollowUp.
  rewrite length_app.
  destruct (1 <? _)%nat; destruct (1 <? _)%nat;
    destruct (chosenLocation sv this) as [loc|]; cbn [length]; try lia;
    destruct (answer sv _ (GetContainerSymbolAtLocation loc)) as [name|]; cbn [length];
    try lia;
    destruct (HoverProvider.getAstNodeType name) as [e|[|]]; cbn [length]; lia.
Qed.

(** ** How a hover ends *)

Section HoverEnds.
Context `{Imports}.
Variables (sv : Services) (this : HoverProvider.t).

(** The end of a hover that reaches the props card of [key]. *)
Lemma provideHover_props_card (key : string) :
  reachesPropsCard sv this key ->
  match antdDocJson (HoverProvider.language this) !! key with
  | None =>
      outcome sv (HoverProvider.provideHover this)
      = Thrown (JS.AntdRushError ("did not match component for " ++ key))
  | Some record =>
      match record !! hoveredWord this with
      | None => outcome sv (HoverProvider.provideHover this) = Thrown JS.TypeError
      | Some doc =>
          exists card, outcome sv (HoverProvider.provideHover this) = Returned (Some card)
                       /\ length (contents card) = 1
      end
  end.
Proof.
  intros (loc & interaceName & name & Hc & Hn & Ht & Hj & Hne & Hf).
  rewrite provideHover_outcome, Hc, Hn, Ht.
  unfold HoverProvider.propsHover, outcome. rewrite run_await. cbn [snd]. rewrite Hj.
  apply truthy_nonempty in Hne. rewrite Hne. cbn [negb]. rewrite Hf.
  destruct (antdDocJson (HoverProvider.language this) !! key) as [record|]; [|reflexivity].
  destruct (record !! hoveredWord this) as [doc|]; [|reflexivity].
  eexists. split; reflexivity.
Qed.

(** The end of a hover that reaches the component card of [comName]. *)
Lemma provideHover_component_card (comName : string) :
  reachesComponentCard sv this comName ->
  match rawTableJson (HoverProvider.language this) !! comName with
  | None => outcome sv (HoverProvider.provideHover this) = Thrown JS.TypeError
  | Some tables =>
      exists card, outcome sv (HoverProvider.provideHover this) = Returned (Some card)
                   /\ length (contents card) = S (length tables)
  end.
Proof.
  intros (loc & interaceName & m & Hc & Hn & Ht & Hm & Hk).
  rewrite provideHover_outcome, Hc, Hn, Ht.
  unfold HoverProvider.componentHover, outcome. rewrite Hm, Hk.
  destruct (tryMatchComponentName_entry _ _ _ Hk) as [entry He].
  rewrite He.
  destruct (rawTableJson (HoverProvider.language this) !! comName) as [tables|];
    [|reflexivity].
  eexists. split; [reflexivity|]. cbn. now rewrite length_map.
Qed.

(** The four ways a hover can go. *)
Lemma provideHover_cases :
  outcome sv (HoverProvider.provideHover this) = Returned None
  \/ (exists loc, chosenLocation sv this = Some loc
                  /\ answer sv _ (GetContainerSymbolAtLocation loc) = Some ""
                  /\ outcome sv (HoverProvider.provideHover this) = Thrown JS.TypeError)
  \/ (exists key, reachesPropsCard sv this key)
  \/ (exists comName, reachesComponentCard sv this comName).
Proof.
  rewrite provideHover_outcome.
  destruct (chosenLocation sv this) as [loc|] eqn:Hc; [|now left].
  destruct (answer sv _ (GetContainerSymbolAtLocation loc)) as [interaceName|] eqn:Hn;
    [|now left].
  destruct interaceName as [|c rest].
  { right. left. exists loc. rewrite Hn. auto. }
  destruct (HoverProvider.getAstNodeType (String c rest)) as [e|[|]] eqn:Ht.
  - rewrite getAstNodeType_cons in Ht. discriminate.
  - unfold HoverProvider.componentHover, outcome.
    destruct (matchAntdModule (path (locUri loc))) as [m|] eqn:Hm; [|now left].
    destruct (HoverProvider.tryMatchComponentName (String c rest) (componentFolder m))
      as [comName|] eqn:Hk; [|now left].
    right. right. right. exists comName, loc, (String c rest), m. auto.
  - unfold HoverProvider.propsHover, outcome. rewrite run_await. cbn [snd].
    destruct (answer sv _ (GetClosetAntdJsxElementNode _ _)) as [name|] eqn:Hj; [|now left].
    destruct (JS.truthy name) eqn:Hne; cbn [negb]; [|now left].
    destruct (HoverProvider.fuzzySearchComponentMapping name) as [key|] eqn:Hf; [|now left].
    right. right. left. exists key, loc, (String c rest), name.
    apply truthy_nonempty in Hne. auto 10.
Qed.

End HoverEnds.

(** X10: a hover ends in the consistency error of the extension exactly
    when it reaches the props card of a catalog key that has no record in
    the documentation table of the language; the message names that key.
    The component card never ends in this error. *)
Theorem provideHover_consistency_error_iff `{Imports}
  (sv : Services) (this : HoverProvider.t) (msg : string) :
  outcome sv (HoverProvider.provideHover this) = Thrown (JS.AntdRushError msg)
  <-> exists key,
        reachesPropsCard sv this key
        /\ antdDocJson (HoverProvider.language this) !! key = None
        /\ msg = "did not match component for " ++ key.
Proof.
  split.
  - intros Hout.
    destruct (provideHover_cases sv this) as [H0|[(loc & _ & _ & H1)|[[key Hr]|[comName Hr]]]];
      try congruence.
    + pose proof (provideHover_props_card sv this key Hr) as Hend.
      destruct (antdDocJson (HoverProvider.language this) !! key) as [record|] eqn:Hd.
      * destruct (record !! hoveredWord this); [destruct Hend as (card & Hend & _)|];
          congruence.
      * exists key. split; [assumption|split; [assumption|congruence]].
    + pose proof (provideHover_component_card sv this comName Hr) as Hend.
      destruct (rawTableJson (HoverProvider.language this) !! comName);
        [destruct Hend as (card & Hend & _)|]; congruence.
  - intros (key & Hr & Hd & ->).
    pose proof (provideHover_props_card sv this key Hr) as Hend. now rewrite Hd in Hend.
Qed.

(** X11: a hover of ASCII names over a plain catalog, on a word that no
    object inherits, ends in a [TypeError] in three cases and no other:
    the container symbol of the chosen location is the empty string; the
    props card is reached and the record of the component has no entry
    for the hovered word; the component card is reached and the table of
    raw documentation has nothing for the component. *)
Theorem provideHover_TypeError_iff `{Imports} (sv : Services) (this : HoverProvider.t) :
  plainHover sv this ->
  outcome sv (HoverProvider.provideHover this) = Thrown JS.TypeError
  <-> (exists loc, chosenLocation sv this = Some loc
                   /\ answer sv _ (GetContainerSymbolAtLocation loc) = Some "")
      \/ (exists key record,
            reachesPropsCard sv this key
            /\ antdDocJson (HoverProvider.language this) !! key = Some record
            /\ record !! hoveredWord this = None)
      \/ (exists comName,
            reachesComponentCard sv this comName
            /\ rawTableJson (HoverProvider.language this) !! comName = None).
Proof.
  intros _. split.
  - intros Hout.
    destruct (provideHover_cases sv this) as [H0|[(loc & Hc & Hn & _)|[[key Hr]|[comName Hr]]]].
    + congruence.
    + left. eauto.
    + pose proof (provideHover_props_card sv this key Hr) as Hend.
      destruct (antdDocJson (HoverProvider.language this) !! key) as [record|] eqn:Hd;
        [|congruence].
      destruct (record !! hoveredWord this) eqn:Hw;
        [destruct Hend as (card & Hend & _); congruence|].
      right. left. eauto.
    + pose proof (provideHover_component_card sv this comName Hr) as Hend.
      destruct (rawTableJson (HoverProvider.language this) !! comName) eqn:Hd;
        [destruct Hend as (card & Hend & _); congruence|].
      right. right. eauto.
  - intros [(loc & Hc & Hn)|[(key & record & Hr & Hd & Hw)|(comName & Hr & Hd)]].
    + now rewrite provideHover_outcome, Hc, Hn.
    + pose proof (provideHover_props_card sv this key Hr) as Hend.
      now rewrite Hd, Hw in Hend.
    + pose proof (provideHover_component_card sv this comName Hr) as Hend.
      now rewrite Hd in Hend.
Qed.

(** X12: a hover of ASCII names over a plain catalog, on a word that no
    object inherits, shows a card in two cases and no other: the props
    card is reached and the record of the component has an entry for the
    hovered word, the card then being one block; or the component card is
    reached and the table of raw documentation has the blocks of the
    component, the card then being a head block followed by one block for
    each of them. *)
Theorem provideHover_card_iff `{Imports} (sv : Services) (this : HoverProvider.t) :
  plainHover sv this ->
  (forall card,
      outcome sv (HoverProvider.provideHover this) = Returned (Some card) ->
      (exists key record doc,
          reachesPropsCard sv this key
          /\ antdDocJson (HoverProvider.language this) !! key = Some record
          /\ record !! hoveredWord this = Some doc
          /\ length (contents card) = 1)
      \/ (exists comName tables,
            reachesComponentCard sv this comName
            /\ rawTableJson (HoverProvider.language this) !! comName = Some tables
            /\ length (contents card) = S (length tables)))
  /\ ((exists key record doc,
         reachesPropsCard sv this key
         /\ antdDocJson (HoverProvider.language this) !! key = Some record
         /\ record !! hoveredWord this = Some doc)
      \/ (exists comName tables,
            reachesComponentCard sv this comName
            /\ rawTableJson (HoverProvider.language this) !! comName = Some tables) ->
      exists card, outcome sv (HoverProvider.provideHover this) = Returned (Some card)).
Proof.
  intros _. split.
  - intros card Hout.
    destruct (provideHover_cases sv this) as [H0|[(loc & _ & _ & H1)|[[key Hr]|[comName Hr]]]];
      try congruence.
    + pose proof (provideHover_props_card sv this key Hr) as Hend.
      destruct (antdDocJson (HoverProvider.language this) !! key) as [record|] eqn:Hd;
        [|congruence].
      destruct (record !! hoveredWord this) as [doc|] eqn:Hw; [|congruence].
      destruct Hend as (card' & Hend & Hlen).
      assert (card' = card) as -> by congruence.
      left. eauto 10.
    + pose proof (provideHover_component_card sv this comName Hr) as Hend.
      destruct (rawTableJson (HoverProvider.language this) !! comName) as [tables|] eqn:Hd;
        [|congruence].
      destruct Hend as (card' & Hend & Hlen).
      assert (card' = card) as -> by congruence.
      right. eauto 10.
  - intros [(key & record & doc & Hr & Hd & Hw)|(comName & tables & Hr & Hd)].
    + pose proof (provideHover_props_card sv this key Hr) as Hend.
      rewrite Hd, Hw in Hend. destruct Hend as (card & Hend & _). eauto.
    + pose proof (provideHover_component_card sv this comName Hr) as Hend.
      rewrite Hd in Hend. destruct Hend as (card & Hend & _). eauto.
Qed.

Lemma provideHover_consistency_error_iff_witness :
  let H := Sample.imports Sample.columnCatalog Sample.buttonDocs in
  let sv := Sample.services None (Some [Sample.insideInterface]) (Some "title")
              (Some "Table.Column") None in
  outcome sv (HoverProvider.provideHover (Sample.hoverOn "title" false))
  = Thrown (JS.AntdRushError "did not match component for TableColumn").
Proof.
  intros H sv.
  apply (proj2 (provideHover_consistency_error_iff sv (Sample.hoverOn "title" false)
                  "did not match component for TableColumn")).
  exists "TableColumn". split; [|split; reflexivity].
  exists Sample.insideInterface, "title", "Table.Column".
  repeat split; try reflexivity. discriminate.
Defined.

Ltac sample_plainHover :=
  unfold plainHover, plainCatalog;
  split; [intros key Hin; enumerate_keys Hin; split; reflexivity|];
  split; [reflexivity|];
  split;
  [ intros loc Hc; vm_compute in Hc; try discriminate; injection Hc as <-;
    split;
    [ intros name Hn; vm_compute in Hn; try discriminate; injection Hn as <-; reflexivity
    | intros m Hm; vm_compute in Hm; try discriminate; injection Hm as <-; reflexivity ]
  | intros name Hn; vm_compute in Hn; try discriminate; injection Hn as <-; reflexivity ].

Lemma provideHover_TypeError_iff_witness :
  let H := Sample.imports Sample.columnCatalog Sample.buttonDocs in
  let sv := Sample.services None (Some [Sample.insideInterface]) (Some "Button")
              None None in
  outcome sv (HoverProvider.provideHover (Sample.hoverOn "Button" false))
  = Thrown JS.TypeError.
Proof.
  intros H sv.
  apply (proj2 (provideHover_TypeError_iff sv (Sample.hoverOn "Button" false)
                  ltac:(sample_plainHover))).
  right. right. exists "Button". split; [|reflexivity].
  exists Sample.insideInterface, "Button", {| componentFolder := "Table" |}.
  repeat split; reflexivity.
Defined.

Lemma provideHover_card_iff_witness :
  let H := Sample.imports Sample.columnCatalog Sample.buttonDocs in
  let sv := Sample.services None (Some [Sample.insideInterface]) (Some "onClick")
              (Some "Button") None in
  exists card,
    outcome sv (HoverProvider.provideHover (Sample.hoverOn "onClick" false))
    = Returned (Some card).
Proof.
  intros H sv.
  apply (proj2 (provideHover_card_iff sv (Sample.hoverOn "onClick" false)
                  ltac:(sample_plainHover))).
  left. exists "Button", {[ "onClick" := Sample.buttonDoc ]}, Sample.buttonDoc.
  split; [|split; reflexivity].
  exists Sample.insideInterface, "onClick", "Button".
  repeat split; try reflexivity. discriminate.
Defined.

(** ** How a completion request ends *)

Lemma assoc_None {V : Type} (key : string) (entries : list (string * V)) :
  assoc key entries = None <-> ~ In key (map fst entries).
Proof.
  induction entries as [|[k v] rest IH]; cbn; [tauto|].
  destruct (String.eqb_spec k key) as [->|Hne].
  - split; [discriminate|]. intros Hn. contradict Hn. now left.
  - rewrite IH. tauto.
Qed.

(** X13: a completion request whose cursor has a character before it
    fails in one case and no other: its token is not cancelled and the
    enclosing component is answered with a name that is no key of the
    catalog and no name every object inherits; it then ends in the
    [TypeError] of reading [methods] off a missing entry.  On a name the
    catalog only inherits the request returns the empty list. *)
Theorem provideCompletionItems_throws_iff `{Imports}
  (sv : Services) (this : AntdProvideCompletionItem.t) (e : JS.Error) :
  cursorAfterCharacter this ->
  (outcome sv (AntdProvideCompletionItem.provideCompletionItems this) = Thrown e
   <-> e = JS.TypeError
       /\ isCancellationRequested (AntdProvideCompletionItem.token this) = false
       /\ exists componentName,
            answer sv _ (GetClosetAntdJsxElementNode
                           (AntdProvideCompletionItem.document this)
                           (AntdProvideCompletionItem.position this)) = Some componentName
            /\ (componentName ∉ Object_keys)
            /\ JS.inherited componentName = false)
  /\ (forall componentName,
        answer sv _ (GetClosetAntdJsxElementNode (AntdProvideCompletionItem.document this)
                       (AntdProvideCompletionItem.position this)) = Some componentName ->
        componentName ∉ Object_keys ->
        JS.inherited componentName = true ->
        outcome sv (AntdProvideCompletionItem.provideCompletionItems this) = Returned []).
Proof.
  intros _. unfold AntdProvideCompletionItem.provideCompletionItems, outcome.
  destruct (isCancellationRequested (AntdProvideCompletionItem.token this)).
  { split; [|reflexivity]. split; [discriminate|]. now intros (_ & ? & _). }
  rewrite run_await. cbn [snd].
  destruct (answer sv _ _) as [componentName|].
  2:{ split; [|discriminate]. split; [discriminate|]. now intros (_ & _ & ? & ? & _). }
  unfold readEntry.
  destruct (assoc componentName antdComponentMap) as [entry|] eqn:Ha.
  - assert (Hin : componentName ∈ Object_keys).
    { apply list_elem_of_In. unfold Object_keys.
      destruct (in_dec string_dec componentName (map fst antdComponentMap)) as [Hin|Hnin];
        [exact Hin|].
      apply assoc_None in Hnin. congruence. }
    split.
    + split.
      * destruct (methods entry); discriminate.
      * intros (_ & _ & name & [= <-] & Hnot & _). contradiction.
    + intros name [= <-] Hnot. contradiction.
  - assert (Hnot : componentName ∉ Object_keys).
    { intros Hin%list_elem_of_In. now apply assoc_None in Ha. }
    destruct (JS.inherited componentName) eqn:Hi.
    + split; [|reflexivity]. split; [discriminate|].
      intros (_ & _ & name & [= <-] & _ & Hi'). congruence.
    + split.
      * split.
        -- intros [= <-]. repeat split. exists componentName. auto.
        -- now intros (-> & _).
      * intros name [= <-] _ Hi'. congruence.
Qed.

Lemma provideCompletionItems_throws_iff_witness :
  let H := Sample.imports Sample.columnCatalog Sample.buttonDocs in
  outcome (Sample.services None None None (Some "Table.Column") None)
          (AntdProvideCompletionItem.provideCompletionItems
             (Sample.completionOn (Some "#") false))
  = Thrown JS.TypeError
  /\ outcome (Sample.services None None None (Some "constructor") None)
             (AntdProvideCompletionItem.provideCompletionItems
                (Sample.completionOn (Some "#") false))
     = Returned [].
Proof.
  intros H.
  assert (Hcursor : cursorAfterCharacter (Sample.completionOn (Some "#") false)).
  { split; vm_compute; discriminate. }
  split.
  - apply (proj2 (proj1 (provideCompletionItems_throws_iff
                           (Sample.services None None None (Some "Table.Column") None)
                           (Sample.completionOn (Some "#") false) JS.TypeError Hcursor))).
    split; [reflexivity|split; [reflexivity|]].
    exists "Table.Column". split; [reflexivity|split; [|reflexivity]].
    intros Hin. enumerate_keys Hin; discriminate.
  - apply (proj2 (provideCompletionItems_throws_iff
                    (Sample.services None None None (Some "constructor") None)
                    (Sample.completionOn (Some "#") false) JS.TypeError Hcursor)
             "constructor"); [reflexivity| |reflexivity].
    intros Hin. enumerate_keys Hin; discriminate.
Defined.

(** X14: for a component with a handler list and a cursor that has a
    character before it, the request asks for the enclosing component,
    then for the enclosing class, and returns one item for each handler,
    in the order of the list and labelled with the handler.  Every item
    is a method whose [afterCompletion] command carries the character
    before the cursor, the document, the handler, the insertion style of
    the trigger character and the class answered.  Nothing of this
    depends on the documentation table. *)
Theorem provideCompletionItems_one_item_per_handler `{Imports}
  (sv : Services) (this : AntdProvideCompletionItem.t) (componentName : string)
  (entry : ComponentMeta) (availableHandler : list string) :
  cursorAfterCharacter this ->
  isCancellationRequested (AntdProvideCompletionItem.token this) = false ->
  answer sv _ (GetClosetAntdJsxElementNode (AntdProvideCompletionItem.document this)
                 (AntdProvideCompletionItem.position this)) = Some componentName ->
  assoc componentName antdComponentMap = Some entry ->
  methods entry = Some availableHandler ->
  exists items,
    run sv (AntdProvideCompletionItem.provideCompletionItems this)
    = ([closestQuestion this; classQuestion this], Returned items)
    /\ map label items = availableHandler
    /\ Forall (fun item =>
                 kind item = Method
                 /\ title (itemCommand item) = "afterCompletion"
                 /\ command (itemCommand item) = "antdRush.afterCompletion"
                 /\ arguments (itemCommand item)
                    = (characterBeforeCursor this, AntdProvideCompletionItem.document this,
                       label item,
                       assoc (JS.orElse (triggerCharacter (AntdProvideCompletionItem.context this))
                                "#")
                             AntdProvideCompletionItem.insertKindMapping,
                       answer sv _ (GetParentsWhen (AntdProvideCompletionItem.document this)
                                      (AntdProvideCompletionItem.position this)
                                      isClassExtendsReactComponent outward)))
              items.
Proof.
  intros _ Hc Hj Ha Hm. eexists. split; [|split].
  - unfold AntdProvideCompletionItem.provideCompletionItems.
    rewrite Hc, run_await. unfold calls, outcome. rewrite Hj, (readEntry_Some _ _ _ Ha), Hm.
    rewrite run_await. reflexivity.
  - rewrite map_map. cbn [label AntdProvideCompletionItem.transformHandlerToItem].
    apply map_id.
  - apply Forall_map. apply Forall_forall. intros handlerName _.
    repeat split; reflexivity.
Qed.

Lemma provideCompletionItems_one_item_per_handler_witness :
  let H := Sample.imports Sample.columnCatalog ∅ in
  exists items,
    outcome (Sample.services None None None (Some "Button") (Some (ClassNode 4)))
            (AntdProvideCompletionItem.provideCompletionItems
               (Sample.completionOn (Some "!") false))
    = Returned items
    /\ map label items = ["onClick"; "onFocus"].
Proof.
  intros H.
  destruct (provideCompletionItems_one_item_per_handler
              (Sample.services None None None (Some "Button") (Some (ClassNode 4)))
              (Sample.completionOn (Some "!") false) "Button"
              (Sample.handlers ["onClick"; "onFocus"]) ["onClick"; "onFocus"])
    as (items & Hrun & Hlabels & _); try reflexivity.
  { split; vm_compute; discriminate. }
  exists items. split; [exact (f_equal snd Hrun) | exact Hlabels].
Defined.

(** X16: the calls of a completion request: none when its token is
    cancelled; otherwise the question for the enclosing component,
    followed by the question for the enclosing class exactly when the
    catalog has a handler list for the answered name.  A completion
    request never asks the definition services. *)
Theorem provideCompletionItems_service_calls `{Imports}
  (sv : Services) (this : AntdProvideCompletionItem.t) :
  calls sv (AntdProvideCompletionItem.provideCompletionItems this)
  = if isCancellationRequested (AntdProvideCompletionItem.token this) then []
    else closestQuestion this
         :: match handlersOf
                    (answer sv _ (GetClosetAntdJsxElementNode
                                    (AntdProvideCompletionItem.document this)
                                    (AntdProvideCompletionItem.position this))) with
            | Some _ => [classQuestion this]
            | None => []
            end.
Proof.
  unfold AntdProvideCompletionItem.provideCompletionItems, calls, handlersOf.
  destruct (isCancellationRequested (AntdProvideCompletionItem.token this)); [reflexivity|].
  rewrite run_await. cbn [fst]. unfold closestQuestion. f_equal.
  destruct (answer sv _ _) as [componentName|]; [|reflexivity].
  unfold readEntry.
  destruct (assoc componentName antdComponentMap) as [entry|];
    [|destruct (JS.inherited componentName); reflexivity].
  destruct (methods entry); reflexivity.
Qed.

Lemma provideCompletionItems_cancelled_witness :
  let H := Sample.imports Sample.columnCatalog Sample.buttonDocs in
  run (Sample.services None None None (Some "Table.Column") None)
      (AntdProvideCompletionItem.provideCompletionItems (Sample.completionOn (Some "#") true))
  = ([], Returned []).
Proof.
  intros H.
  apply (proj2 (provideCompletionItems_cancelled (Sample.completionOn (Some "#") true)
                  eq_refl)).
Defined.
